(** * Knowledge Atlas backend: a shallow embedding and its properties

    The development follows the Python package [src/backend]:
    - [Py]          the fragment of Python the backend relies on
                    (exceptions, [print], [datetime], [str.split]);
    - [Database]    [database.py], the SQLite catalogue of entries;
    - [Storage]     [storage.py], the S3 adapter;
    - [Processing]  [processing.py], image normalisation and scraping;
    - [LlmChain]    [llm_chain.py], the text analysis chain;
    - [App]         [app.py], the FastAPI handlers.

    What lies outside the package (the clock, the uuid source, the S3
    client, the HTTP client, the HTML parser, the image codec, the language
    model) is an input of the function that calls it: a call may return or
    raise. *)

From Stdlib Require Import ZArith List String Ascii Bool Lia.
From Stdlib Require Import Sorting.Sorted Sorting.Permutation.
From stdpp Require Import base option gmap strings list sorting.

Set Warnings "-register-all".

Local Open Scope string_scope.
Local Open Scope list_scope.

(* ===================================================================== *)
(** ** Python prelude *)
(* ===================================================================== *)

Module Py.

(** The exceptions the backend raises or lets through.  All of them derive
    from Python's [Exception]. *)
Inductive exn : Type :=
| KeyError (key : string)
| IntegrityError (msg : string)
| OSError (msg : string)
| UnidentifiedImageError (msg : string)
| HTTPError (status_code : Z)
| ConnectionError (msg : string)
| OutputParserException (msg : string)
| HTTPException (status_code : Z) (detail : string).

(** [str(e)], as it appears in the messages the backend prints. *)
Definition exn_str (e : exn) : string :=
  match e with
  | KeyError k => "'" +:+ k +:+ "'"
  | IntegrityError m | OSError m | UnidentifiedImageError m
  | ConnectionError m | OutputParserException m => m
  | HTTPError _ => "HTTP Error"
  | HTTPException _ d => d
  end.

(** The result of a call: a value, or an exception. *)
Inductive outcome (A : Type) : Type :=
| Returned (a : A)
| Raised (e : exn).
Arguments Returned {A} a.
Arguments Raised {A} e.

(** A computation over a mutable state [S] (the database file, the bucket,
    standard output): the state after the call is kept whether the call
    returned or raised. *)
Definition M (S A : Type) : Type := S -> outcome A * S.

Definition ret {S A} (a : A) : M S A := fun s => (Returned a, s).
Definition raise {S A} (e : exn) : M S A := fun s => (Raised e, s).
Definition bind {S A B} (m : M S A) (k : A -> M S B) : M S B :=
  fun s => match m s with
           | (Returned a, s') => k a s'
           | (Raised e, s') => (Raised e, s')
           end.
(** [try: m  except Exception as e: h e] *)
Definition try_except {S A} (m : M S A) (h : exn -> M S A) : M S A :=
  fun s => match m s with
           | (Returned a, s') => (Returned a, s')
           | (Raised e, s') => h e s'
           end.
Definition get {S} : M S S := fun s => (Returned s, s).
Definition modify {S} (f : S -> S) : M S unit := fun s => (Returned tt, f s).
(** Running a computation on a component of a larger state. *)
Definition zoom {W S A} (proj : W -> S) (inj : S -> W -> W) (m : M S A) : M W A :=
  fun w => let '(r, s') := m (proj w) in (r, inj s' w).
(** A call to an external service whose answer does not depend on the
    modelled state. *)
Definition call {S A} (r : outcome A) : M S A := fun s => (r, s).

Declare Scope py_scope.
Delimit Scope py_scope with py.
Notation "'let*' x := m 'in' k" := (bind m (fun x => k))
  (at level 10, x name, m at level 200, k at level 200) : py_scope.
Notation "'exec' m 'in' k" := (bind m (fun _ => k))
  (at level 10, m at level 200, k at level 200) : py_scope.

(** [o is None] *)
Definition is_None {A} (o : option A) : bool :=
  match o with
  | None => true
  | Some _ => false
  end.

(** Python truthiness of [Optional[str]]: [None] and [""] are falsy. *)
Definition truthy (o : option string) : bool :=
  match o with
  | Some s => negb (String.eqb s "")
  | None => false
  end.

(** *** [datetime] *)

Record datetime : Type := {
  year : nat; month : nat; day : nat;
  hour : nat; minute : nat; second : nat; microsecond : nat
}.

Definition digit (n : nat) : ascii := ascii_of_nat (48 + n mod 10).

(** [n] in decimal on [w] digits, zero padded (the low [w] digits). *)
Fixpoint zfill (w : nat) (n : nat) : string :=
  match w with
  | O => ""
  | S w' => zfill w' (n / 10) +:+ String (digit n) ""
  end.

(** [now.strftime("%Y-%m")].  [datetime] years range over 1..9999; the
    year is written on four digits. *)
Definition strftime_Y_m (d : datetime) : string :=
  zfill 4 (year d) +:+ "-" +:+ zfill 2 (month d).

(** [d.isoformat(" ")], the text under which the [sqlite3] module stores a
    [datetime] parameter: the microseconds are left out when they are 0. *)
Definition isoformat (d : datetime) : string :=
  zfill 4 (year d) +:+ "-" +:+ zfill 2 (month d) +:+ "-" +:+ zfill 2 (day d)
  +:+ " " +:+ zfill 2 (hour d) +:+ ":" +:+ zfill 2 (minute d)
  +:+ ":" +:+ zfill 2 (second d)
  +:+ (if Nat.eqb (microsecond d) 0 then "" else "." +:+ zfill 6 (microsecond d)).

(** The line feed, ["\n"]. *)
Definition newline : string := String "010"%char "".

(** *** [str.split] on a one-character separator *)

(** [split_go sep s cur] splits [s], [cur] being the reversed prefix of the
    piece being read. *)
Fixpoint split_go (sep : ascii) (s : string) (cur : list ascii) : list string :=
  match s with
  | EmptyString => [string_of_list_ascii (rev cur)]
  | String c s' =>
      if Ascii.eqb c sep
      then string_of_list_ascii (rev cur) :: split_go sep s' []
      else split_go sep s' (c :: cur)
  end.

(** [s.split(sep)]: never empty; a string without [sep] is its only piece. *)
Definition split (sep : ascii) (s : string) : list string := split_go sep s [].

(** [l[-1]] on a list known to be non-empty ([d] is never returned for the
    result of [split]). *)
Definition last_item (l : list string) (d : string) : string := List.last l d.

(** *** The values the backend's result dicts hold: [None], a [str], or a
    list of [str] (the tags). *)
Inductive pyval : Type :=
| PyNone
| PyStr (s : string)
| PyList (l : list string).

End Py.

(* ===================================================================== *)
(** ** database.py *)
(* ===================================================================== *)

Module Database.
Import Py.
Local Open Scope py_scope.

(** A value stored in a column.  Everything the backend binds is [None] or
    text: form fields, stage names, JSON text, and [datetime] values, which
    the [sqlite3] module stores under their [isoformat(" ")]. *)
Inductive sqlval : Type :=
| SqlNull
| SqlText (s : string).

#[global] Instance sqlval_eq_dec : EqDecision sqlval.
Proof. solve_decision. Defined.

(** The columns an [UPDATE] or [INSERT] of the backend names ([id] apart). *)
Inductive column : Type :=
| col_theme | col_source_type | col_source_url | col_entry_date
| col_process_stage | col_tags | col_summary_caption
| col_explain_like_im_5 | col_file_storage_path
| col_created_at | col_updated_at.

#[global] Instance column_eq_dec : EqDecision column.
Proof. solve_decision. Defined.

(** A row of [entries], in the order of [CREATE TABLE]. *)
Record Entry : Type := {
  id : string;
  theme : sqlval;
  source_type : sqlval;
  source_url : sqlval;
  entry_date : sqlval;
  process_stage : sqlval;
  tags : sqlval;
  summary_caption : sqlval;
  explain_like_im_5 : sqlval;
  file_storage_path : sqlval;
  created_at : sqlval;
  updated_at : sqlval
}.

(** The table, in insertion (rowid) order. *)
Definition table : Type := list Entry.

Definition get_column (c : column) (e : Entry) : sqlval :=
  match c with
  | col_theme => theme e
  | col_source_type => source_type e
  | col_source_url => source_url e
  | col_entry_date => entry_date e
  | col_process_stage => process_stage e
  | col_tags => tags e
  | col_summary_caption => summary_caption e
  | col_explain_like_im_5 => explain_like_im_5 e
  | col_file_storage_path => file_storage_path e
  | col_created_at => created_at e
  | col_updated_at => updated_at e
  end.

(** [SET c = v] on one row. *)
Definition set_column (c : column) (v : sqlval) (e : Entry) : Entry :=
  let pick c' := if decide (c = c') then v else get_column c' e in
  {| id := id e;
     theme := pick col_theme;
     source_type := pick col_source_type;
     source_url := pick col_source_url;
     entry_date := pick col_entry_date;
     process_stage := pick col_process_stage;
     tags := pick col_tags;
     summary_caption := pick col_summary_caption;
     explain_like_im_5 := pick col_explain_like_im_5;
     file_storage_path := pick col_file_storage_path;
     created_at := pick col_created_at;
     updated_at := pick col_updated_at |}.

(** [SET c1 = v1, c2 = v2, ...] on one row, left to right. *)
Definition set_columns (assignments : list (column * sqlval)) (e : Entry) : Entry :=
  fold_left (fun e' cv => set_column (fst cv) (snd cv) e') assignments e.

(** [UPDATE entries SET ... WHERE id = ?] *)
Definition sql_update (assignments : list (column * sqlval)) (entry_id : string)
    (t : table) : table :=
  map (fun e => if String.eqb (id e) entry_id then set_columns assignments e else e) t.

(** [INSERT INTO entries ...]: [id] is the primary key, a second row with
    the same [id] is refused with [sqlite3.IntegrityError]. *)
Definition sql_insert (row : Entry) : M table unit :=
  fun t =>
    if existsb (fun e => String.eqb (id e) (id row)) t
    then (Raised (IntegrityError "UNIQUE constraint failed: entries.id"), t)
    else (Returned tt, t ++ [row]).

(** [entry_data[key]]: raises [KeyError] when the key is absent. *)
Definition subscript {S} (entry_data : gmap string sqlval) (key : string) : M S sqlval :=
  match entry_data !! key with
  | Some v => ret v
  | None => raise (KeyError key)
  end.

(** [entry_data.get(key, dflt)] *)
Definition dict_get (entry_data : gmap string sqlval) (key : string) (dflt : sqlval) : sqlval :=
  default dflt (entry_data !! key).

(** [add_entry(entry_data)].  [new_id] is the text of [uuid.uuid4()] and
    [now] the value of [datetime.now()] drawn by this call.  The parameter
    tuple is evaluated left to right before the statement runs. *)
Definition add_entry (new_id : string) (now : datetime)
    (entry_data : gmap string sqlval) : M table string :=
  let p_theme := dict_get entry_data "theme" (SqlText "General") in
  let* p_source_type := subscript entry_data "source_type" in
  let* p_source_url := subscript entry_data "source_url" in
  let p_entry_date := dict_get entry_data "entry_date" (SqlText (strftime_Y_m now)) in
  exec sql_insert
    {| id := new_id;
       theme := p_theme;
       source_type := p_source_type;
       source_url := p_source_url;
       entry_date := p_entry_date;
       process_stage := SqlText "Uploaded";
       tags := SqlNull;
       summary_caption := SqlText "Processing summary...";
       explain_like_im_5 := SqlNull;
       file_storage_path := SqlNull;
       created_at := SqlText (isoformat now);
       updated_at := SqlText (isoformat now) |} in
  ret new_id.

(** The keys [update_status] looks for in [result_data], each absent
    ([None]) or present with its value; the code ignores any other key. *)
Record ResultData : Type := {
  rd_summary_caption : option sqlval;
  rd_explain_like_im_5 : option sqlval;
  rd_tags : option (list string);
  rd_file_storage_path : option sqlval
}.

Section UpdateStatus.
(** [json.dumps] on a list of strings. *)
Variable json_dumps : list string -> string.

(** [", c = ?"] appended to the query and its value to [params], when the
    key is in [result_data]. *)
Definition set_if_present (c : column) (v : option sqlval) : list (column * sqlval) :=
  match v with
  | Some x => [(c, x)]
  | None => []
  end.

(** The [SET] list [update_status] builds.  [if result_data:] is false for
    [None] and for the empty dict, which names no key either. *)
Definition update_assignments (now : datetime) (stage : string)
    (result_data : option ResultData) : list (column * sqlval) :=
  [(col_process_stage, SqlText stage); (col_updated_at, SqlText (isoformat now))]
  ++ match result_data with
     | Some rd =>
         set_if_present col_summary_caption (rd_summary_caption rd)
         ++ set_if_present col_explain_like_im_5 (rd_explain_like_im_5 rd)
         ++ set_if_present col_tags
              (option_map (fun l => SqlText (json_dumps l)) (rd_tags rd))
         ++ set_if_present col_file_storage_path (rd_file_storage_path rd)
     | None => []
     end.

(** [update_status(entry_id, stage, result_data)] *)
Definition update_status (now : datetime) (entry_id stage : string)
    (result_data : option ResultData) : M table unit :=
  modify (sql_update (update_assignments now stage result_data) entry_id).
End UpdateStatus.

(** [get_entry(entry_id)]: the first row with that id, if any. *)
Definition get_entry (entry_id : string) (t : table) : option Entry :=
  List.find (fun e => String.eqb (id e) entry_id) t.

(** Order of SQLite values under the default collation: [NULL] sorts before
    any text, texts compare byte by byte. *)
Definition sql_leb (a b : sqlval) : bool :=
  match a, b with
  | SqlNull, _ => true
  | SqlText _, SqlNull => false
  | SqlText x, SqlText y => String.leb x y
  end.

(** [a] may precede [b] under [ORDER BY updated_at DESC]. *)
Definition updated_desc (a b : Entry) : Prop :=
  sql_leb (updated_at b) (updated_at a) = true.

#[global] Instance updated_desc_dec : RelDecision updated_desc.
Proof. intros a b. unfold updated_desc. apply _. Defined.

(** A row put into rows already ordered: before the first row it may
    precede, so after every row with a greater [updated_at]. *)
Fixpoint insert_by_updated_at (e : Entry) (ordered : list Entry) : list Entry :=
  match ordered with
  | [] => [e]
  | x :: rest =>
      if sql_leb (updated_at x) (updated_at e)
      then e :: ordered
      else x :: insert_by_updated_at e rest
  end.

(** [ORDER BY updated_at DESC].  SQL leaves the order of rows with equal
    keys open; SQLite's sorter returns them in table order, and so does the
    model. *)
Definition order_by_updated_at_desc (rows : list Entry) : list Entry :=
  fold_right insert_by_updated_at [] rows.

(** The integers the [sqlite3] module binds as parameters: signed 64 bits.
    On a larger [int], [execute] raises [OverflowError]. *)
Definition sqlite_int (z : Z) : Prop := (- 2 ^ 63 <= z < 2 ^ 63)%Z.

(** The parameters of the data query of a page can be bound. *)
Definition page_in_range (page limit : Z) : Prop :=
  sqlite_int limit /\ sqlite_int ((page - 1) * limit).

(** [LIMIT ? OFFSET ?]: a negative limit means no limit, a negative offset
    counts as 0. *)
Definition limit_offset {A} (limit offset : Z) (rows : list A) : list A :=
  let skipped := List.skipn (Z.to_nat offset) rows in
  if (limit <? 0)%Z then skipped else List.firstn (Z.to_nat limit) skipped.

(** The [WHERE] clause: [if matching_ids:] holds for a non-empty list only;
    for [None] and for [[]] no clause is added. *)
Definition where_clause (matching_ids : option (list string)) (e : Entry) : bool :=
  match matching_ids with
  | Some (i :: ids) => existsb (String.eqb (id e)) (i :: ids)
  | Some [] | None => true
  end.

(** [get_paginated_entries(page, limit, matching_ids)]: the rows of the page
    (the DataFrame) and [total_count], for a page in range
    ([page_in_range]); out of range the data query cannot be bound and the
    call raises [OverflowError], which this function does not describe. *)
Definition get_paginated_entries (page limit : Z) (matching_ids : option (list string))
    (t : table) : list Entry * Z :=
  let offset := ((page - 1) * limit)%Z in
  let total_count := Z.of_nat (List.length (List.filter (where_clause matching_ids) t)) in
  let df := limit_offset limit offset
              (order_by_updated_at_desc (List.filter (where_clause matching_ids) t)) in
  (df, total_count).

Section Search.
(** The answer of the FTS5 index to
    [SELECT id FROM entries_fts WHERE summary_caption MATCH ?]: the ids of
    the matching rows, or an error (a query the engine cannot parse). *)
Variable fts_match : string -> outcome (list string).

(** [search_entries(keyword)]: the keyword is matched as a prefix. *)
Definition search_entries (keyword : string) : outcome (list string) :=
  fts_match (keyword +:+ "*").
End Search.

(** *** Reading a row after [update_status] *)

(** The value of a result column after the update: the one in
    [result_data] when its key is there, the old one otherwise. *)
Definition result_or_old {A} (result_data : option ResultData)
    (key : ResultData -> option A) (to : A -> sqlval) (old : sqlval) : sqlval :=
  match result_data with
  | Some rd => match key rd with
               | Some v => to v
               | None => old
               end
  | None => old
  end.

(** The row [update_status] leaves in place of [e]. *)
Definition status_updated (json_dumps : list string -> string) (now : datetime)
    (stage : string) (result_data : option ResultData) (e e' : Entry) : Prop :=
  id e' = id e
  /\ process_stage e' = SqlText stage
  /\ updated_at e' = SqlText (isoformat now)
  /\ summary_caption e'
     = result_or_old result_data rd_summary_caption (fun v => v) (summary_caption e)
  /\ explain_like_im_5 e'
     = result_or_old result_data rd_explain_like_im_5 (fun v => v) (explain_like_im_5 e)
  /\ tags e'
     = result_or_old result_data rd_tags (fun l => SqlText (json_dumps l)) (tags e)
  /\ file_storage_path e'
     = result_or_old result_data rd_file_storage_path (fun v => v) (file_storage_path e)
  /\ theme e' = theme e
  /\ source_type e' = source_type e
  /\ source_url e' = source_url e
  /\ entry_date e' = entry_date e
  /\ created_at e' = created_at e.

End Database.

(* ===================================================================== *)
(** ** storage.py *)
(* ===================================================================== *)

Module Storage.
Import Py.
Local Open Scope py_scope.

Definition bytes : Type := list Byte.byte.

(** [s.split(sep, 1)] when it gives two pieces: the text before the first
    [sep] and the text after it; [None] when [s] has no [sep] (one piece). *)
Fixpoint split_first (sep : ascii) (s : string) : option (string * string) :=
  match s with
  | EmptyString => None
  | String c s' =>
      if Ascii.eqb c sep then Some ("", s')
      else match split_first sep s' with
           | Some (a, b) => Some (String c a, b)
           | None => None
           end
  end.

Section S3.
(** The object store behind the boto3 client, and the client's calls; each
    may raise (missing bucket, credentials, connectivity). *)
Variable S3 : Type.
Variable BUCKET_NAME : string.
Variable get_s3_client : outcome unit.
Variable head_bucket : string -> M S3 unit.
Variable create_bucket : string -> M S3 unit.
Variable upload_fileobj : bytes -> string -> string -> option string -> M S3 unit.

(** The state [upload_file] acts on: the store and standard output. *)
Definition on_s3 {A} (m : M S3 A) : M (S3 * list string) A :=
  zoom fst (fun s w => (s, snd w)) m.
Definition print (line : string) : M (S3 * list string) unit :=
  modify (fun w => (fst w, snd w ++ [line])).

(** [upload_file(file_obj, object_name, content_type)]: the location
    [bucket/object_name], or [None] after any failure past the creation of
    the client. *)
Definition upload_file (file_obj : bytes) (object_name : string)
    (content_type : option string) : M (S3 * list string) (option string) :=
  exec call get_s3_client in
  try_except
    (exec try_except (on_s3 (head_bucket BUCKET_NAME))
                     (fun _ => on_s3 (create_bucket BUCKET_NAME)) in
     let extra_args := if truthy content_type then content_type else None in
     exec on_s3 (upload_fileobj file_obj BUCKET_NAME object_name extra_args) in
     ret (Some (BUCKET_NAME +:+ "/" +:+ object_name)))
    (fun e =>
       exec print ("Upload Error: " +:+ exn_str e) in
       ret None).
Variable get_object : string -> string -> M S3 bytes.

(** [download_file_obj(object_path)]: the content of the object, or [None]
    after any failure past the creation of the client.  A path without
    [/] fails at the unpacking of [object_path.split('/', 1)], a
    [ValueError] the same handler catches and prints. *)
Definition download_file_obj (object_path : string)
    : M (S3 * list string) (option bytes) :=
  exec call get_s3_client in
  match split_first "/" object_path with
  | Some (bucket, key) =>
      try_except
        (let* body := on_s3 (get_object bucket key) in
         ret (Some body))
        (fun e =>
           exec print ("Download Error: " +:+ exn_str e) in
           ret None)
  | None =>
      exec print "Download Error: not enough values to unpack (expected 2, got 1)" in
      ret None
  end.
End S3.

End Storage.

(* ===================================================================== *)
(** ** processing.py *)
(* ===================================================================== *)

Module Processing.
Import Py.
Local Open Scope py_scope.
Local Open Scope Z_scope.

Definition bytes : Type := list Byte.byte.

Definition print (line : string) : M (list string) unit :=
  modify (fun out => out ++ [line]).

(** *** Pillow *)

(** Pillow's modes that carry an alpha band. *)
Definition has_alpha (mode : string) : bool :=
  existsb (String.eqb mode) ["RGBA"; "LA"; "PA"; "RGBa"; "La"].

(** Pillow's indexed-palette mode. *)
Definition is_palette (mode : string) : bool := String.eqb mode "P".

(** The modes Pillow's JPEG writer accepts (the keys of its [RAWMODE]
    table); [save] raises [OSError] on any other. *)
Definition jpeg_writable (mode : string) : bool :=
  existsb (String.eqb mode) ["1"; "L"; "RGB"; "RGBX"; "CMYK"; "YCbCr"].

(** An in-memory stream: its content and the position of the next read. *)
Record BytesIO : Type := { getvalue : bytes; tell : nat }.

(** [output_io.seek(0)] *)
Definition seek0 (io : BytesIO) : BytesIO := {| getvalue := getvalue io; tell := 0 |}.

Definition ceil_div (a b : Z) : Z := - ((- a) / b).

(** [max(min(floor(number), ceil(number), key=key), 1)] of
    [Image.thumbnail]: [lo] and [hi] are the floor and the ceiling, and
    [key_le a b] tells [key(a) <= key(b)]; [min] keeps the first of two
    equal keys. *)
Definition round_aspect (lo hi : Z) (key_le : Z -> Z -> bool) : Z :=
  Z.max (if key_le lo hi then lo else hi) 1.

(** The size [Image.thumbnail((x, y))] gives an image of size [(w, h)]:
    [None] when the image already fits.  Pillow computes the quotients in
    floating point; they are exact rationals here, compared by cross
    multiplication. *)
Definition thumbnail_size (x y w h : Z) : option (Z * Z) :=
  if (w <=? x) && (h <=? y) then None
  else if w * y <=? x * h
  then (* x / y >= aspect: the height is kept, key n = |aspect - n / y| *)
    Some (round_aspect (y * w / h) (ceil_div (y * w) h)
            (fun a b => Z.abs (w * y - a * h) <=? Z.abs (w * y - b * h)),
          y)
  else (* key n = 0 if n == 0 else |aspect - x / n| *)
    Some (x,
          round_aspect (x * h / w) (ceil_div (x * h) w)
            (fun a b => if a =? 0 then true
                        else if b =? 0 then Z.abs (w * a - x * h) =? 0
                        else Z.abs (w * a - x * h) * b <=? Z.abs (w * b - x * h) * a)).

Section Image.
(** The pixel data, and the codec: decoding, band conversion, resampling
    and JPEG encoding are Pillow's. *)
Variable pixels : Type.

Record Image : Type := {
  mode : string;
  width : Z;
  height : Z;
  data : pixels
}.

Variable Image_open : bytes -> outcome Image.
Variable convert_data : string -> string -> pixels -> pixels.
Variable lanczos : Z * Z -> Z * Z -> pixels -> pixels.
Variable jpeg_encode : Image -> Z -> bytes.

(** [img.convert(m)] *)
Definition convert (img : Image) (m : string) : Image :=
  {| mode := m; width := width img; height := height img;
     data := convert_data (mode img) m (data img) |}.

(** [img.thumbnail(max_size, Image.Resampling.LANCZOS)] *)
Definition thumbnail (img : Image) (max_size : Z * Z) : Image :=
  match thumbnail_size (fst max_size) (snd max_size) (width img) (height img) with
  | None => img
  | Some (w', h') =>
      {| mode := mode img; width := w'; height := h';
         data := lanczos (width img, height img) (w', h') (data img) |}
  end.

(** [img.save(output_io, format='JPEG', quality=q)] on a fresh stream. *)
Definition save_jpeg {S} (img : Image) (q : Z) : M S BytesIO :=
  if jpeg_writable (mode img)
  then let b := jpeg_encode img q in
       ret {| getvalue := b; tell := List.length b |}
  else raise (OSError ("cannot write mode " +:+ mode img +:+ " as JPEG")).

(** [resize_image_for_storage(image_bytes)] *)
Definition resize_image_for_storage (image_bytes : bytes) : M (list string) BytesIO :=
  try_except
    (let* img := call (Image_open image_bytes) in
     let img := if existsb (String.eqb (mode img)) ["RGBA"; "P"]
                then convert img "RGB" else img in
     let max_size := (1920, 1920) in
     let img := thumbnail img max_size in
     let* output_io := save_jpeg img 85 in
     ret (seek0 output_io))
    (fun e =>
       exec print ("Resize Error: " +:+ exn_str e) in
       raise e).
End Image.

(** *** requests and BeautifulSoup *)

Record Request : Type := {
  req_url : string;
  req_headers : list (string * string);
  req_timeout : Z
}.

Record Response : Type := { status_code : Z; content : bytes }.

(** [response.raise_for_status()]: [HTTPError] on a 4xx or 5xx status. *)
Definition raise_for_status {S} (r : Response) : M S unit :=
  if (400 <=? status_code r) && (status_code r <? 600)
  then raise (HTTPError (status_code r))
  else ret tt.

(** A parsed document: text, comments, and tags with their children. *)
Inductive node : Type :=
| NavigableString (s : string)
| Comment (s : string)
| Tag (name : string) (contents : list node).

(** [soup.find(name)]: the first tag of that name, in document order. *)
Fixpoint find_in (name : string) (n : node) : option node :=
  match n with
  | NavigableString _ | Comment _ => None
  | Tag nm cs =>
      if String.eqb nm name then Some n
      else (fix go (l : list node) : option node :=
              match l with
              | [] => None
              | c :: l' => match find_in name c with
                           | Some t => Some t
                           | None => go l'
                           end
              end) cs
  end.

Fixpoint find (name : string) (doc : list node) : option node :=
  match doc with
  | [] => None
  | n :: doc' => match find_in name n with
                 | Some t => Some t
                 | None => find name doc'
                 end
  end.

(** [soup.find_all(name)]: every tag of that name, nested ones included, in
    document order. *)
Fixpoint find_all_in (name : string) (n : node) : list node :=
  match n with
  | NavigableString _ | Comment _ => []
  | Tag nm cs =>
      (if String.eqb nm name then [n] else [])
      ++ (fix go (l : list node) : list node :=
            match l with
            | [] => []
            | c :: l' => find_all_in name c ++ go l'
            end) cs
  end.

Definition find_all (name : string) (doc : list node) : list node :=
  List.concat (List.map (find_all_in name) doc).

(** [tag.get_text()]: the strings below the tag, comments left out. *)
Fixpoint get_text (n : node) : string :=
  match n with
  | NavigableString s => s
  | Comment _ => ""
  | Tag _ cs =>
      (fix go (l : list node) : string :=
         match l with
         | [] => ""
         | c :: l' => get_text c +:+ go l'
         end) cs
  end.

(** [tag.string]: the only child when it is a string, the [.string] of the
    only child when it is a tag, [None] otherwise. *)
Fixpoint tag_string (n : node) : option string :=
  match n with
  | NavigableString s | Comment s => Some s
  | Tag _ [c] => tag_string c
  | Tag _ _ => None
  end.

Definition pystr (o : option string) : pyval :=
  match o with
  | Some s => PyStr s
  | None => PyNone
  end.

(** [s[:n]] *)
Definition slice_to (n : Z) (s : string) : string := String.substring 0 (Z.to_nat n) s.

Section Scrape.
Variable requests_get : Request -> outcome Response.
(** [BeautifulSoup(content, 'html.parser')]: the top-level nodes. *)
Variable BeautifulSoup : bytes -> outcome (list node).

(** [scrape_website(url)] *)
Definition scrape_website (url : string) : M (list string) (gmap string pyval) :=
  try_except
    (let headers := [("User-Agent", "Mozilla/5.0")] in
     let* response := call (requests_get
                        {| req_url := url; req_headers := headers; req_timeout := 10 |}) in
     exec raise_for_status response in
     let* soup := call (BeautifulSoup (content response)) in
     let title := match find "title" soup with
                  | Some t => pystr (tag_string t)
                  | None => PyStr ""
                  end in
     let text_content :=
       fold_left (fun acc p => acc +:+ (get_text p +:+ newline))
                 (find_all "p" soup) "" in
     ret (<["title" := title]> (<["text" := PyStr (slice_to 10000 text_content)]> ∅)))
    (fun e =>
       exec print ("Scrape Error: " +:+ exn_str e) in
       raise e).
End Scrape.

End Processing.

(* ===================================================================== *)
(** ** llm_chain.py *)
(* ===================================================================== *)

Module LlmChain.
Import Py.
Local Open Scope py_scope.

(** The schema the parser checks the model's answer against. *)
Record TextAnalysis : Type := {
  summary : string;
  eli5 : string;
  tags : list string
}.

Definition print (line : string) : M (list string) unit :=
  modify (fun out => out ++ [line]).

(** [result.dict()] *)
Definition dict (r : TextAnalysis) : gmap string pyval :=
  <["summary" := PyStr (summary r)]>
    (<["eli5" := PyStr (eli5 r)]> (<["tags" := PyList (tags r)]> ∅)).

Section Chain.
(** [parser.get_format_instructions()], the chat model and the output
    parser: the last two may raise. *)
Variable format_instructions : string.
Variable llm : string -> outcome string.
Variable parser : string -> outcome TextAnalysis.

(** The prompt template, formatted. *)
Definition prompt (text : string) : string :=
  newline +:+ "        Analyze the following text content from a website:" +:+ newline
  +:+ "        " +:+ newline
  +:+ "        " +:+ text +:+ newline
  +:+ "        " +:+ newline
  +:+ "        " +:+ format_instructions +:+ newline
  +:+ "        ".

(** [(prompt | llm | parser).invoke({"text": text})] *)
Definition chain_invoke (text : string) : M (list string) TextAnalysis :=
  let* message := call (llm (prompt text)) in
  call (parser message).

(** [analyze_text_content(text)] *)
Definition analyze_text_content (text : string) : M (list string) (gmap string pyval) :=
  try_except
    (let* result := chain_invoke text in
     ret (dict result))
    (fun e =>
       exec print ("LLM Error: " +:+ exn_str e) in
       ret (<["summary" := PyStr "Error generating summary"]>
              (<["eli5" := PyStr "Error"]> (<["tags" := PyList ["error"]]> ∅)))).
End Chain.

End LlmChain.

(* ===================================================================== *)
(** ** app.py *)
(* ===================================================================== *)

Module App.
Import Py.
Local Open Scope py_scope.

Definition bytes : Type := list Byte.byte.

(** An uploaded form file: the client's file name, if it sent one, and the
    content [await file.read()] returns. *)
Record UploadFile : Type := {
  filename : option string;
  file_content : bytes
}.

(** [None] or a string, as a bound parameter. *)
Definition to_sql (o : option string) : Database.sqlval :=
  match o with
  | Some s => Database.SqlText s
  | None => Database.SqlNull
  end.

Section Handlers.
Variable S3 : Type.
Variable BUCKET_NAME : string.
Variable get_s3_client : outcome unit.
Variable head_bucket : string -> M S3 unit.
Variable create_bucket : string -> M S3 unit.
Variable upload_fileobj : bytes -> string -> string -> option string -> M S3 unit.
Variable json_dumps : list string -> string.

(** What a request can read and change: the catalogue, the queue of the
    background processor, the object store and standard output. *)
Record world : Type := {
  entries : Database.table;
  tasks : list string;
  s3 : S3;
  stdout : list string
}.

Definition on_db {A} (m : M Database.table A) : M world A :=
  zoom entries
    (fun t w => {| entries := t; tasks := tasks w; s3 := s3 w; stdout := stdout w |}) m.

Definition on_storage {A} (m : M (S3 * list string) A) : M world A :=
  zoom (fun w => (s3 w, stdout w))
    (fun s w => {| entries := entries w; tasks := tasks w; s3 := fst s; stdout := snd s |}) m.

(** Modelled from the spec: [BackgroundProcessor.add_task] of [worker.py],
    which is not part of the sources.  "addTask(entryId): enqueues an entry
    for processing; may be called multiple times for the same id": the id
    goes to the end of the queue. *)
Definition add_task (entry_id : string) : M world unit :=
  modify (fun w => {| entries := entries w; tasks := tasks w ++ [entry_id];
                      s3 := s3 w; stdout := stdout w |}).

(** [file.filename.split('.')[-1] if file.filename else 'dat'] *)
Definition file_extension (file : UploadFile) : string :=
  if truthy (filename file)
  then last_item (split "." (default "" (filename file))) ""
  else "dat".

(** [POST /api/upload].  [temp_uuid] and [new_id] are the texts of the two
    [uuid.uuid4()] the request may draw, [now] is the clock read by
    [add_entry]. *)
Definition upload_entry (temp_uuid new_id : string) (now : datetime)
    (theme entryDate type : string) (url : option string) (file : option UploadFile)
    : M world (list (string * string)) :=
  if String.eqb type "image" && is_None file
  then raise (HTTPException 400 "Image upload requires a file.")
  else if String.eqb type "link" && is_None url
  then raise (HTTPException 400 "Link upload requires a URL.")
  else
    let* source_url :=
      match (if String.eqb type "image" then file else None) with
      | Some f =>
          let temp_path := "temp/" +:+ temp_uuid +:+ "." +:+ file_extension f in
          let* source_url :=
            on_storage (Storage.upload_file S3 BUCKET_NAME get_s3_client head_bucket
                          create_bucket upload_fileobj (file_content f) temp_path None) in
          if negb (truthy source_url)
          then raise (HTTPException 500 "Failed to upload file to storage.")
          else ret source_url
      | None =>
          if String.eqb type "link" then ret url else ret None
      end in
    let entry_data : gmap string Database.sqlval :=
      <["theme" := Database.SqlText theme]>
        (<["source_type" := Database.SqlText type]>
           (<["source_url" := to_sql source_url]>
              (<["entry_date" := Database.SqlText entryDate]> ∅))) in
    let* new_id := on_db (Database.add_entry new_id now entry_data) in
    exec add_task new_id in
    ret [("message", "Entry submitted and queued for processing."); ("id", new_id)].

(** [POST /api/reprocess/{entry_id}] *)
Definition reprocess_entry (now : datetime) (entry_id : string)
    : M world (list (string * string)) :=
  let* w := get in
  match Database.get_entry entry_id (entries w) with
  | None => raise (HTTPException 404 "Entry not found.")
  | Some _ =>
      exec on_db (Database.update_status json_dumps now entry_id "Uploaded" None) in
      exec add_task entry_id in
      ret [("message", "Entry " +:+ entry_id +:+ " reset to Uploaded and re-queued.")]
  end.
Variable fts_match : string -> outcome (list string).

(** [GET /api/entries]: the rows of the page (the [data] of the response)
    and [total]. *)
Definition get_entries (page limit : Z) (keyword : option string)
    : M world (list Database.Entry * Z) :=
  let* matching_ids :=
    if truthy keyword
    then let* ids := call (Database.search_entries fts_match (default "" keyword)) in
         ret (Some ids)
    else ret None in
  let* w := get in
  ret (Database.get_paginated_entries page limit matching_ids (entries w)).
End Handlers.

Arguments entries {S3} w.
Arguments tasks {S3} w.
Arguments s3 {S3} w.
Arguments stdout {S3} w.

End App.

(* ===================================================================== *)
(** ** Properties of the Python prelude *)
(* ===================================================================== *)

Module PyTheory.
Import Py.

(** *** Strings *)

Lemma append_cons (x : ascii) (a b : string) : String x a +:+ b = String x (a +:+ b).
Proof. reflexivity. Qed.

Lemma append_assoc (a b c : string) : (a +:+ b) +:+ c = a +:+ (b +:+ c).
Proof.
  induction a as [|x a IH]; [reflexivity|].
  rewrite !append_cons, IH. reflexivity.
Qed.

Lemma append_empty_r (a : string) : a +:+ "" = a.
Proof.
  induction a as [|x a IH]; [reflexivity|].
  rewrite append_cons, IH. reflexivity.
Qed.

Lemma concat_cons (x : string) (l : list string) :
  String.concat "" (x :: l) = x +:+ String.concat "" l.
Proof. destruct l; cbn; [now rewrite append_empty_r|reflexivity]. Qed.

Lemma fold_left_append {A} (f : A -> string) (l : list A) (init : string) :
  fold_left (fun acc x => acc +:+ f x) l init = init +:+ String.concat "" (map f l).
Proof.
  revert init. induction l as [|x l IH]; intros init.
  - cbn. now rewrite append_empty_r.
  - cbn [fold_left map]. rewrite IH, concat_cons, append_assoc. reflexivity.
Qed.

Lemma substring_length_le n (s : string) : String.length (String.substring 0 n s) <= n.
Proof.
  revert s. induction n as [|n IH]; intros [|c s]; cbn; try lia.
  specialize (IH s). lia.
Qed.

(** *** [str.split] and the last piece *)

Lemma split_go_nonempty sep s cur : split_go sep s cur <> [].
Proof.
  revert cur. induction s as [|c s IH]; intros cur; cbn; [discriminate|].
  destruct (Ascii.eqb c sep); [discriminate|apply IH].
Qed.

Lemma last_cons {A} (x : A) (l : list A) d : l <> [] -> List.last (x :: l) d = List.last l d.
Proof. destruct l; [congruence|reflexivity]. Qed.

Lemma string_of_list_ascii_snoc (l : list ascii) (c : ascii) (s : string) :
  string_of_list_ascii (l ++ [c]) +:+ s = string_of_list_ascii l +:+ String c s.
Proof.
  induction l as [|x l IH]; [reflexivity|].
  cbn [app string_of_list_ascii]. rewrite !append_cons, IH. reflexivity.
Qed.

(** A string without the separator is its own only piece. *)
Lemma split_go_no_sep sep s cur :
  ~ In sep (list_ascii_of_string s) ->
  split_go sep s cur = [string_of_list_ascii (rev cur) +:+ s].
Proof.
  revert cur. induction s as [|c s IH]; intros cur Hno; cbn in *.
  - now rewrite append_empty_r.
  - destruct (Ascii.eqb_spec c sep) as [->|Hne]; [tauto|].
    rewrite IH by tauto. cbn. rewrite string_of_list_ascii_snoc. reflexivity.
Qed.

(** The last piece is the last piece of what follows a separator. *)
Lemma last_split_go_app sep a b cur d :
  List.last (split_go sep (a +:+ String sep b) cur) d
  = List.last (split_go sep b []) d.
Proof.
  revert cur. induction a as [|c a IH]; intros cur.
  - change ("" +:+ String sep b) with (String sep b). cbn [split_go].
    rewrite Ascii.eqb_refl. apply last_cons, split_go_nonempty.
  - rewrite append_cons. cbn [split_go].
    destruct (Ascii.eqb c sep).
    + rewrite last_cons by apply split_go_nonempty. apply IH.
    + apply IH.
Qed.

Lemma append_not_empty (a : string) (c : ascii) (b : string) :
  String.eqb (a +:+ String c b) "" = false.
Proof. destruct a; reflexivity. Qed.

(** [name.split('.')[-1]] of [stem.ext] is [ext]. *)
Lemma last_split_extension (stem ext : string) :
  ~ In "."%char (list_ascii_of_string ext) ->
  last_item (split "." (stem +:+ "." +:+ ext)) "" = ext.
Proof.
  intros Hno. unfold last_item, split.
  change ("." +:+ ext) with (String "."%char ext).
  rewrite last_split_go_app, split_go_no_sep by exact Hno. reflexivity.
Qed.

(** A name without a dot is its own last piece. *)
Lemma last_split_no_dot (name : string) :
  ~ In "."%char (list_ascii_of_string name) ->
  last_item (split "." name) "" = name.
Proof.
  intros Hno. unfold last_item, split. rewrite split_go_no_sep by exact Hno.
  reflexivity.
Qed.

End PyTheory.

(* ===================================================================== *)
(** ** Properties of the catalogue (database.py) *)
(* ===================================================================== *)

Module DatabaseTheory.
Import Py Database.

(** *** Rows and assignments *)

Lemma id_set_column c v e : id (set_column c v e) = id e.
Proof. reflexivity. Qed.

Lemma get_set_column_eq c v e : get_column c (set_column c v e) = v.
Proof. destruct c; cbn; reflexivity. Qed.

Lemma get_set_column_ne c c' v e :
  c <> c' -> get_column c' (set_column c v e) = get_column c' e.
Proof. intros Hne. destruct c, c'; cbn; try reflexivity; congruence. Qed.

Lemma id_set_columns l e : id (set_columns l e) = id e.
Proof.
  unfold set_columns. revert e.
  induction l as [|[c v] l IH]; intros e; cbn; [reflexivity|].
  rewrite IH. apply id_set_column.
Qed.

(** A column no assignment names keeps its value. *)
Lemma set_columns_frame l c e :
  c ∉ map fst l -> get_column c (set_columns l e) = get_column c e.
Proof.
  unfold set_columns. revert e.
  induction l as [|[c' v] l IH]; intros e Hnot; cbn in *; [reflexivity|].
  apply not_elem_of_cons in Hnot as [Hne Hnot].
  rewrite IH by assumption.
  apply get_set_column_ne. congruence.
Qed.

(** A column named once takes the value assigned to it. *)
Lemma set_columns_assigned l c v e :
  NoDup (map fst l) -> (c, v) ∈ l -> get_column c (set_columns l e) = v.
Proof.
  unfold set_columns. revert e.
  induction l as [|[c' v'] l IH]; intros e Hnd Hin; cbn in *.
  - apply elem_of_nil in Hin. contradiction.
  - apply NoDup_cons in Hnd as [Hfresh Hnd].
    apply elem_of_cons in Hin as [Heq|Hin].
    + inversion Heq; subst.
      fold (set_columns l (set_column c' v' e)).
      rewrite set_columns_frame by assumption. apply get_set_column_eq.
    + apply IH; assumption.
Qed.

(** *** [sql_update] row by row *)

Lemma sql_update_length l i t : length (sql_update l i t) = length t.
Proof. unfold sql_update. apply length_map. Qed.

Lemma sql_update_Forall2 l i t :
  Forall2 (fun e e' => e' = if String.eqb (id e) i then set_columns l e else e)
          t (sql_update l i t).
Proof. induction t as [|e t IH]; cbn; constructor; auto. Qed.

Lemma get_entry_sql_update l i t :
  get_entry i (sql_update l i t) = option_map (set_columns l) (get_entry i t).
Proof.
  unfold get_entry, sql_update.
  induction t as [|e t IH]; cbn; [reflexivity|].
  destruct (String.eqb (id e) i) eqn:He.
  - rewrite id_set_columns, He. reflexivity.
  - rewrite He. exact IH.
Qed.

Lemma get_entry_id i t e : get_entry i t = Some e -> id e = i.
Proof.
  unfold get_entry. intros H. apply find_some in H as [_ H].
  apply String.eqb_eq. exact H.
Qed.

(** [get_entry] finds no row exactly when the table holds none of that id. *)
Lemma get_entry_absent i (t : table) :
  (forall e, In e t -> id e <> i) -> get_entry i t = None.
Proof.
  unfold get_entry. induction t as [|x t IH]; intros Hno; cbn; [reflexivity|].
  destruct (String.eqb (id x) i) eqn:Hx.
  - apply String.eqb_eq in Hx. exfalso. apply (Hno x); [left; reflexivity|exact Hx].
  - apply IH. intros e He. apply Hno. right. exact He.
Qed.

Lemma get_entry_present i (t : table) e :
  In e t -> id e = i -> exists e0, get_entry i t = Some e0.
Proof.
  unfold get_entry. induction t as [|x t IH]; intros Hin Hid; [destruct Hin|].
  cbn. destruct (String.eqb (id x) i) eqn:Hx; [eexists; reflexivity|].
  destruct Hin as [->|Hin]; [|apply IH; assumption].
  apply String.eqb_neq in Hx. contradiction.
Qed.

(** *** [add_entry] *)

Lemma existsb_find_none {A} (f : A -> bool) (l : list A) :
  List.find f l = None -> existsb f l = false.
Proof.
  induction l as [|x l IH]; cbn; [reflexivity|].
  destruct (f x); [discriminate|]. exact IH.
Qed.

(** A call whose dict lacks a required key raises [KeyError] before any
    statement runs. *)
Lemma add_entry_missing_key new_id now (entry_data : gmap string sqlval) (t : table) :
  entry_data !! "source_type" = None \/
  (is_Some (entry_data !! "source_type") /\ entry_data !! "source_url" = None) ->
  exists k, add_entry new_id now entry_data t = (Raised (KeyError k), t).
Proof.
  unfold add_entry, bind, subscript, ret, raise.
  intros [H|[[st H1] H2]].
  - rewrite H. eexists; reflexivity.
  - rewrite H1, H2. eexists; reflexivity.
Qed.

(** With both required keys and a new id, the call stores this row. *)
Lemma add_entry_inserts new_id now (entry_data : gmap string sqlval) (t : table) st su :
  entry_data !! "source_type" = Some st ->
  entry_data !! "source_url" = Some su ->
  get_entry new_id t = None ->
  add_entry new_id now entry_data t
  = (Returned new_id,
     t ++ [{| id := new_id;
              theme := dict_get entry_data "theme" (SqlText "General");
              source_type := st;
              source_url := su;
              entry_date := dict_get entry_data "entry_date" (SqlText (strftime_Y_m now));
              process_stage := SqlText "Uploaded";
              tags := SqlNull;
              summary_caption := SqlText "Processing summary...";
              explain_like_im_5 := SqlNull;
              file_storage_path := SqlNull;
              created_at := SqlText (isoformat now);
              updated_at := SqlText (isoformat now) |}]).
Proof.
  intros Hst Hsu Hfresh.
  unfold add_entry, bind, subscript, ret, sql_insert.
  rewrite Hst, Hsu. cbn [id].
  rewrite (existsb_find_none _ _ Hfresh). reflexivity.
Qed.

(** C1, the claim as stated fails: a call whose fields carry no
    [source_type] raises [KeyError], returns no id and stores no row. *)
Lemma add_entry_without_source_type_raises :
  add_entry "0b0e7a9e-6a3f-4c39-8d5b-2f1f3c0a9d11"
    {| year := 2025; month := 3; day := 9; hour := 14; minute := 30;
       second := 7; microsecond := 0 |}
    (<["theme" := SqlText "Art"]> (<["source_url" := SqlText "https://example.org"]> ∅))
    []
  = (Raised (KeyError "source_type"), []).
Proof. vm_compute. reflexivity. Qed.

(** C1, amended.  When the fields hold [source_type] and [source_url] and
    the generated id is new to the table, [add_entry] returns that id and
    appends one row with that id, [process_stage = "Uploaded"],
    [summary_caption = "Processing summary..."] and [created_at] equal to
    [updated_at] (the current time); [theme] is the given one, or
    ["General"] when the fields omit it; [entry_date] is the given one, or
    the current year-month when the fields omit it. *)
Theorem add_entry_persists (new_id : string) (now : datetime)
    (entry_data : gmap string sqlval) (t : table) (st su : sqlval) :
  entry_data !! "source_type" = Some st ->
  entry_data !! "source_url" = Some su ->
  get_entry new_id t = None ->
  exists row,
    add_entry new_id now entry_data t = (Returned new_id, t ++ [row])
    /\ id row = new_id
    /\ process_stage row = SqlText "Uploaded"
    /\ summary_caption row = SqlText "Processing summary..."
    /\ created_at row = updated_at row
    /\ updated_at row = SqlText (isoformat now)
    /\ source_type row = st
    /\ source_url row = su
    /\ theme row = match entry_data !! "theme" with
                   | Some v => v
                   | None => SqlText "General"
                   end
    /\ entry_date row = match entry_data !! "entry_date" with
                        | Some v => v
                        | None => SqlText (strftime_Y_m now)
                        end.
Proof.
  intros Hst Hsu Hfresh.
  rewrite (add_entry_inserts _ _ _ _ _ _ Hst Hsu Hfresh).
  eexists. split; [reflexivity|].
  unfold dict_get. cbn.
  destruct (entry_data !! "theme"), (entry_data !! "entry_date");
    repeat split; reflexivity.
Qed.

Lemma add_entry_persists_witness :
  let now := {| year := 2025; month := 3; day := 9; hour := 14; minute := 30;
                second := 7; microsecond := 0 |} in
  let entry_data : gmap string sqlval :=
    <["source_type" := SqlText "link"]>
      (<["source_url" := SqlText "https://example.org"]> ∅) in
  exists row,
    add_entry "u-1" now entry_data [] = (Returned "u-1", [] ++ [row])
    /\ id row = "u-1"
    /\ process_stage row = SqlText "Uploaded"
    /\ summary_caption row = SqlText "Processing summary..."
    /\ created_at row = updated_at row
    /\ updated_at row = SqlText (isoformat now)
    /\ source_type row = SqlText "link"
    /\ source_url row = SqlText "https://example.org"
    /\ theme row = match entry_data !! "theme" with
                   | Some v => v
                   | None => SqlText "General"
                   end
    /\ entry_date row = match entry_data !! "entry_date" with
                        | Some v => v
                        | None => SqlText (strftime_Y_m now)
                        end.
Proof.
  intros now entry_data.
  apply (add_entry_persists "u-1" now entry_data []
           (SqlText "link") (SqlText "https://example.org"));
    vm_compute; reflexivity.
Defined.

(** The row of the witness, computed: the defaults are ["General"] and the
    year-month of the clock. *)
Example add_entry_defaults :
  add_entry "u-1"
    {| year := 2025; month := 3; day := 9; hour := 14; minute := 30;
       second := 7; microsecond := 0 |}
    (<["source_type" := SqlText "link"]>
       (<["source_url" := SqlText "https://example.org"]> ∅)) []
  = (Returned "u-1",
     [{| id := "u-1"; theme := SqlText "General"; source_type := SqlText "link";
         source_url := SqlText "https://example.org";
         entry_date := SqlText "2025-03";
         process_stage := SqlText "Uploaded"; tags := SqlNull;
         summary_caption := SqlText "Processing summary...";
         explain_like_im_5 := SqlNull; file_storage_path := SqlNull;
         created_at := SqlText "2025-03-09 14:30:07";
         updated_at := SqlText "2025-03-09 14:30:07" |}]).
Proof. vm_compute. reflexivity. Qed.

(** *** [get_paginated_entries] *)

#[local] Instance updated_desc_total : Total updated_desc.
Proof.
  intros a b. unfold updated_desc.
  destruct (updated_at a) as [|x], (updated_at b) as [|y]; cbn; auto.
  destruct (String.leb_total y x); auto.
Qed.

Lemma insert_by_updated_at_Permutation e l : insert_by_updated_at e l ≡ₚ e :: l.
Proof.
  induction l as [|x l IH]; cbn; [reflexivity|].
  destruct (sql_leb (updated_at x) (updated_at e)); [reflexivity|].
  rewrite IH. apply perm_swap.
Qed.

Lemma order_by_Permutation l : order_by_updated_at_desc l ≡ₚ l.
Proof.
  induction l as [|e l IH]; cbn; [reflexivity|].
  rewrite insert_by_updated_at_Permutation, IH. reflexivity.
Qed.

Lemma insert_by_updated_at_Sorted e l :
  Sorted updated_desc l -> Sorted updated_desc (insert_by_updated_at e l).
Proof.
  intros Hs. induction Hs as [|x l Hs IH Hhd]; cbn.
  - repeat constructor.
  - destruct (sql_leb (updated_at x) (updated_at e)) eqn:Hle.
    + constructor; [constructor; assumption|]. constructor. exact Hle.
    + constructor; [exact IH|].
      assert (Hxe : updated_desc x e).
      { destruct (updated_desc_total x e) as [H|H]; [exact H|].
        unfold updated_desc in H. congruence. }
      destruct Hhd as [|y l Hxy]; cbn.
      * constructor. exact Hxe.
      * destruct (sql_leb (updated_at y) (updated_at e)); constructor; assumption.
Qed.

Lemma order_by_Sorted l : Sorted updated_desc (order_by_updated_at_desc l).
Proof.
  induction l as [|e l IH]; cbn; [constructor|].
  apply insert_by_updated_at_Sorted, IH.
Qed.

(** Rows already in order, rows with equal keys among them, stay as they
    are. *)
Lemma order_by_ordered l : Sorted updated_desc l -> order_by_updated_at_desc l = l.
Proof.
  intros Hs. induction Hs as [|x l Hs IH Hhd]; [reflexivity|].
  change (order_by_updated_at_desc (x :: l))
    with (insert_by_updated_at x (order_by_updated_at_desc l)).
  rewrite IH. destruct Hhd as [|y l Hxy]; [reflexivity|].
  cbn. unfold updated_desc in Hxy. now rewrite Hxy.
Qed.

Lemma Sorted_skipn {A} (R : A -> A -> Prop) n (l : list A) :
  Sorted R l -> Sorted R (List.skipn n l).
Proof.
  revert l. induction n as [|n IH]; intros l Hs; [exact Hs|].
  destruct l as [|x l]; [constructor|].
  cbn. apply IH. inversion Hs; assumption.
Qed.

Lemma Sorted_firstn {A} (R : A -> A -> Prop) n (l : list A) :
  Sorted R l -> Sorted R (List.firstn n l).
Proof.
  intros Hs. revert n. induction Hs as [|x l Hs IH Hhd]; intros n.
  - destruct n; constructor.
  - destruct n as [|n]; cbn; [constructor|].
    constructor; [apply IH|].
    destruct Hhd; destruct n; cbn; constructor; assumption.
Qed.

Lemma limit_offset_Sorted {A} (R : A -> A -> Prop) limit offset (l : list A) :
  Sorted R l -> Sorted R (limit_offset limit offset l).
Proof.
  intros Hs. unfold limit_offset.
  destruct (limit <? 0)%Z; [|apply Sorted_firstn]; apply Sorted_skipn, Hs.
Qed.

Lemma limit_offset_In {A} limit offset (l : list A) x :
  In x (limit_offset limit offset l) -> In x l.
Proof.
  unfold limit_offset. intros H.
  assert (Hskip : forall n y, In y (List.skipn n l) -> In y l).
  { intros n y Hy. rewrite <- (firstn_skipn n l). apply in_or_app. auto. }
  destruct (limit <? 0)%Z; [eauto|].
  apply (Hskip (Z.to_nat offset)).
  rewrite <- (firstn_skipn (Z.to_nat limit) (List.skipn _ l)).
  apply in_or_app. auto.
Qed.

(** The page is cut out of the filtered rows ordered by [updated_at]
    descending; [offset] is [(page - 1) * limit]; the count is taken over
    the filtered rows, without limit or offset. *)
Lemma get_paginated_entries_spec page limit matching_ids (t : table) :
  let '(df, total_count) := get_paginated_entries page limit matching_ids t in
  let selected := List.filter (where_clause matching_ids) t in
  df = limit_offset limit ((page - 1) * limit)%Z (order_by_updated_at_desc selected)
  /\ order_by_updated_at_desc selected ≡ₚ selected
  /\ Sorted updated_desc (order_by_updated_at_desc selected)
  /\ Sorted updated_desc df
  /\ total_count = Z.of_nat (length selected).
Proof.
  cbn. repeat split.
  - apply order_by_Permutation.
  - apply order_by_Sorted.
  - apply limit_offset_Sorted, order_by_Sorted.
Qed.

(** With a non-empty list of ids, rows and count are restricted to it. *)
Lemma where_clause_nonempty i ids e :
  where_clause (Some (i :: ids)) e = true <-> In (id e) (i :: ids).
Proof.
  unfold where_clause. rewrite existsb_exists. split.
  - intros [x [Hin Heq]]. apply String.eqb_eq in Heq. subst. exact Hin.
  - intros Hin. exists (id e). split; [exact Hin|apply String.eqb_refl].
Qed.

Lemma get_paginated_entries_restricted page limit i ids (t : table) e :
  In e (fst (get_paginated_entries page limit (Some (i :: ids)) t)) ->
  In e t /\ In (id e) (i :: ids).
Proof.
  cbn [get_paginated_entries fst]. intros H.
  apply limit_offset_In in H.
  apply (Permutation_in _ (order_by_Permutation _)) in H.
  apply filter_In in H as [Ht Hw].
  split; [exact Ht|]. apply where_clause_nonempty, Hw.
Qed.

Lemma filter_everything {A} (f : A -> bool) (l : list A) :
  (forall x, f x = true) -> List.filter f l = l.
Proof.
  intros Hf. induction l as [|x l IH]; cbn; [reflexivity|].
  rewrite Hf, IH. reflexivity.
Qed.

(** C2, at the failing inputs.  An empty list of matching ids restricts
    nothing: the call answers as if no list had been given, and the count
    is the size of the whole table, where the claim wants no row and a
    count of 0. *)
Theorem get_paginated_entries_empty_ids_unfiltered (page limit : Z) (t : table) :
  get_paginated_entries page limit (Some []) t
  = get_paginated_entries page limit None t
  /\ snd (get_paginated_entries page limit (Some []) t) = Z.of_nat (length t)
  /\ fst (get_paginated_entries page limit (Some []) t)
     = limit_offset limit ((page - 1) * limit)%Z (order_by_updated_at_desc t).
Proof.
  unfold get_paginated_entries. cbn [fst snd].
  rewrite !filter_everything by reflexivity.
  repeat split.
Qed.

(** A search that matched nothing lists the whole catalogue. *)
Example get_paginated_entries_empty_ids_example :
  let e := {| id := "a1"; theme := SqlText "Art"; source_type := SqlText "link";
              source_url := SqlText "https://example.org";
              entry_date := SqlText "2025-03";
              process_stage := SqlText "Uploaded"; tags := SqlNull;
              summary_caption := SqlText "Processing summary...";
              explain_like_im_5 := SqlNull; file_storage_path := SqlNull;
              created_at := SqlText "2025-03-09 14:30:07";
              updated_at := SqlText "2025-03-09 14:30:07" |} in
  get_paginated_entries 1 10 (Some []) [e] = ([e], 1%Z)
  /\ get_paginated_entries 1 10 (Some ["zz"]) [e] = ([], 0%Z).
Proof. split; vm_compute; reflexivity. Qed.

(** *** What [update_status] writes to a row *)

Lemma update_assignments_row json_dumps now stage result_data e :
  status_updated json_dumps now stage result_data e
    (set_columns (update_assignments json_dumps now stage result_data) e).
Proof.
  unfold status_updated, result_or_old.
  destruct result_data as [[sc el tg fp]|]; cbn [rd_summary_caption
    rd_explain_like_im_5 rd_tags rd_file_storage_path];
    [destruct sc, el, tg, fp|]; repeat split; reflexivity.
Qed.

(** C3.  [update_status] always succeeds and rewrites the table row by row:
    a row with another id is left as it is; in a row with the given id,
    [process_stage] becomes the stage and [updated_at] the current time,
    each of [summary_caption], [explain_like_im_5], [tags] (as JSON text)
    and [file_storage_path] takes the value of its key in the result mapping
    when the key is present, and [id], [theme], [source_type], [source_url],
    [entry_date], [created_at] and every result column whose key is absent
    keep their values.  Without a result mapping only [process_stage] and
    [updated_at] change. *)
Theorem update_status_frame (json_dumps : list string -> string) (now : datetime)
    (entry_id stage : string) (result_data : option ResultData) (t : table) :
  exists t',
    update_status json_dumps now entry_id stage result_data t = (Returned tt, t')
    /\ Forall2 (fun e e' =>
                  if String.eqb (id e) entry_id
                  then status_updated json_dumps now stage result_data e e'
                  else e' = e) t t'
    /\ (result_data = None ->
        Forall2 (fun e e' =>
                   forall c, c <> col_process_stage -> c <> col_updated_at ->
                             get_column c e' = get_column c e) t t').
Proof.
  eexists. split; [reflexivity|]. split.
  - eapply Forall2_impl; [apply sql_update_Forall2|].
    intros e e' ->. cbn beta.
    destruct (String.eqb (id e) entry_id); [|reflexivity].
    apply update_assignments_row.
  - intros ->.
    eapply Forall2_impl; [apply sql_update_Forall2|].
    intros e e' -> c Hc1 Hc2. cbn beta.
    destruct (String.eqb (id e) entry_id); [|reflexivity].
    apply set_columns_frame. cbn. rewrite !not_elem_of_cons.
    repeat split; try congruence. apply not_elem_of_nil.
Qed.

(** *** Further properties of the catalogue *)

Lemma find_snoc {A} (f : A -> bool) (l : list A) (x : A) :
  List.find f (l ++ [x])
  = match List.find f l with
    | Some y => Some y
    | None => if f x then Some x else None
    end.
Proof.
  induction l as [|y l IH]; cbn; [reflexivity|].
  destruct (f y); [reflexivity|exact IH].
Qed.

Lemma existsb_find_some {A} (f : A -> bool) (l : list A) (x : A) :
  List.find f l = Some x -> existsb f l = true.
Proof.
  induction l as [|y l IH]; cbn; [discriminate|].
  destruct (f y); [reflexivity|exact IH].
Qed.

Lemma get_entry_none_ids i (t : table) : get_entry i t = None <-> i ∉ map id t.
Proof.
  unfold get_entry. induction t as [|e t IH]; cbn.
  - split; [intros _; apply not_elem_of_nil|reflexivity].
  - rewrite not_elem_of_cons. destruct (String.eqb_spec (id e) i) as [Heq|Hne].
    + split; [discriminate|]. intros [Hn _]. congruence.
    + rewrite IH. split; [intros H; split; [congruence|exact H]|tauto].
Qed.

(** X1.  Creation and lookup round trip: after a successful [add_entry],
    [get_entry] on the returned id finds the row just stored, and the
    lookup of every other id answers as before. *)
Theorem add_entry_then_get_entry (new_id : string) (now : datetime)
    (entry_data : gmap string sqlval) (t : table) (st su : sqlval) :
  entry_data !! "source_type" = Some st ->
  entry_data !! "source_url" = Some su ->
  get_entry new_id t = None ->
  exists t' row,
    add_entry new_id now entry_data t = (Returned new_id, t')
    /\ get_entry new_id t' = Some row
    /\ id row = new_id
    /\ source_type row = st
    /\ source_url row = su
    /\ process_stage row = SqlText "Uploaded"
    /\ (forall other, other <> new_id -> get_entry other t' = get_entry other t).
Proof.
  intros Hst Hsu Hfresh.
  rewrite (add_entry_inserts _ now _ _ _ _ Hst Hsu Hfresh).
  eexists _, _. split; [reflexivity|].
  assert (Hlookup : forall i row,
            get_entry i (t ++ [row])
            = match get_entry i t with
              | Some y => Some y
              | None => if String.eqb (id row) i then Some row else None
              end)
    by (intros i row; exact (find_snoc (fun e => String.eqb (id e) i) t row)).
  rewrite Hlookup, Hfresh. cbn [id]. rewrite String.eqb_refl.
  split; [reflexivity|]. do 4 (split; [reflexivity|]).
  intros other Hne. rewrite Hlookup. cbn [id].
  apply not_eq_sym, String.eqb_neq in Hne. rewrite Hne.
  destruct (get_entry other t); reflexivity.
Qed.

Lemma add_entry_then_get_entry_witness :
  let now := {| year := 2025; month := 3; day := 9; hour := 14; minute := 30;
                second := 7; microsecond := 0 |} in
  let entry_data : gmap string sqlval :=
    <["source_type" := SqlText "link"]>
      (<["source_url" := SqlText "https://example.org"]> ∅) in
  exists t' row,
    add_entry "u-1" now entry_data [] = (Returned "u-1", t')
    /\ get_entry "u-1" t' = Some row
    /\ id row = "u-1"
    /\ source_type row = SqlText "link"
    /\ source_url row = SqlText "https://example.org"
    /\ process_stage row = SqlText "Uploaded"
    /\ (forall other, other <> "u-1" -> get_entry other t' = get_entry other []).
Proof.
  intros now entry_data.
  apply (add_entry_then_get_entry "u-1" now entry_data []
           (SqlText "link") (SqlText "https://example.org"));
    vm_compute; reflexivity.
Defined.

(** X2.  The primary key is enforced: when the table already holds a row
    with the generated id, [add_entry] raises [IntegrityError] and the table
    is unchanged. *)
Theorem add_entry_duplicate_id (new_id : string) (now : datetime)
    (entry_data : gmap string sqlval) (t : table) (st su : sqlval) (e : Entry) :
  entry_data !! "source_type" = Some st ->
  entry_data !! "source_url" = Some su ->
  get_entry new_id t = Some e ->
  add_entry new_id now entry_data t
  = (Raised (IntegrityError "UNIQUE constraint failed: entries.id"), t).
Proof.
  intros Hst Hsu Hdup.
  unfold add_entry, bind, subscript, ret, sql_insert.
  rewrite Hst, Hsu. cbn [id].
  unfold get_entry in Hdup. rewrite (existsb_find_some _ _ _ Hdup). reflexivity.
Qed.

Lemma add_entry_duplicate_id_witness :
  let now := {| year := 2025; month := 3; day := 9; hour := 14; minute := 30;
                second := 7; microsecond := 0 |} in
  let entry_data : gmap string sqlval :=
    <["source_type" := SqlText "link"]>
      (<["source_url" := SqlText "https://example.org"]> ∅) in
  let e := {| id := "u-1"; theme := SqlText "Art"; source_type := SqlText "link";
              source_url := SqlNull; entry_date := SqlText "2025-03";
              process_stage := SqlText "Done"; tags := SqlNull;
              summary_caption := SqlText "A summary"; explain_like_im_5 := SqlNull;
              file_storage_path := SqlNull;
              created_at := SqlText "2025-03-01 08:00:00";
              updated_at := SqlText "2025-03-01 08:00:05" |} in
  add_entry "u-1" now entry_data [e]
  = (Raised (IntegrityError "UNIQUE constraint failed: entries.id"), [e]).
Proof.
  intros now entry_data e.
  apply (add_entry_duplicate_id "u-1" now entry_data [e]
           (SqlText "link") (SqlText "https://example.org") e);
    vm_compute; reflexivity.
Defined.

(** X3.  The required keys are read in order: without [source_type] the
    call raises [KeyError('source_type')], with it but without [source_url]
    it raises [KeyError('source_url')]; either way the table is unchanged,
    whatever the other keys hold. *)
Theorem add_entry_requires_keys (new_id : string) (now : datetime)
    (entry_data : gmap string sqlval) (t : table) :
  match entry_data !! "source_type", entry_data !! "source_url" with
  | None, _ => add_entry new_id now entry_data t = (Raised (KeyError "source_type"), t)
  | Some _, None => add_entry new_id now entry_data t = (Raised (KeyError "source_url"), t)
  | Some _, Some _ =>
      forall k, add_entry new_id now entry_data t <> (Raised (KeyError k), t)
  end.
Proof.
  unfold add_entry, bind, subscript, ret, raise, sql_insert.
  destruct (entry_data !! "source_type"); [|reflexivity].
  destruct (entry_data !! "source_url"); [|reflexivity].
  intros k. cbn [id]. destruct (existsb _ t); discriminate.
Qed.

(** X4.  The ids of the table stay pairwise distinct: neither [add_entry]
    (whether it returns or raises) nor [update_status] can leave two rows
    with the same id. *)
Theorem primary_key_preserved (t : table) :
  NoDup (map id t) ->
  (forall new_id now entry_data,
      NoDup (map id (snd (add_entry new_id now entry_data t))))
  /\ (forall json_dumps now entry_id stage result_data,
         NoDup (map id (snd (update_status json_dumps now entry_id stage result_data t)))).
Proof.
  intros Hnd. split.
  - intros new_id now entry_data.
    unfold add_entry, bind, subscript, ret, raise, sql_insert.
    destruct (entry_data !! "source_type"); [|exact Hnd].
    destruct (entry_data !! "source_url"); [|exact Hnd].
    cbn [id]. destruct (existsb _ t) eqn:Hex; cbn [snd]; [exact Hnd|].
    rewrite map_app. cbn [map id].
    apply NoDup_app. split; [exact Hnd|]. split; [|apply NoDup_singleton].
    intros x Hx Hx'. apply list_elem_of_singleton in Hx'. subst x.
    assert (Hnone : get_entry new_id t = None).
    { unfold get_entry. destruct (List.find _ t) eqn:Hf; [|reflexivity].
      apply existsb_find_some in Hf. congruence. }
    apply get_entry_none_ids in Hnone. contradiction.
  - intros json_dumps now entry_id stage result_data.
    unfold update_status, modify, sql_update. cbn [snd].
    rewrite map_map.
    erewrite map_ext; [exact Hnd|].
    intros e. cbv beta. destruct (String.eqb (id e) entry_id); [|reflexivity].
    apply id_set_columns.
Qed.

Lemma primary_key_preserved_witness :
  let e := {| id := "u-1"; theme := SqlText "Art"; source_type := SqlText "link";
              source_url := SqlNull; entry_date := SqlText "2025-03";
              process_stage := SqlText "Done"; tags := SqlNull;
              summary_caption := SqlText "A summary"; explain_like_im_5 := SqlNull;
              file_storage_path := SqlNull;
              created_at := SqlText "2025-03-01 08:00:00";
              updated_at := SqlText "2025-03-01 08:00:05" |} in
  NoDup (map id [e])
  /\ (forall new_id now entry_data,
         NoDup (map id (snd (add_entry new_id now entry_data [e]))))
  /\ (forall json_dumps now entry_id stage result_data,
         NoDup (map id (snd (update_status json_dumps now entry_id stage result_data [e])))).
Proof.
  intros e.
  assert (Hnd : NoDup (map id [e])) by apply NoDup_singleton.
  split; [exact Hnd|]. exact (primary_key_preserved [e] Hnd).
Defined.

(** X5.  A status update for an id the table does not hold changes nothing
    and raises nothing. *)
Theorem update_status_unknown_id (json_dumps : list string -> string) (now : datetime)
    (entry_id stage : string) (result_data : option ResultData) (t : table) :
  get_entry entry_id t = None ->
  update_status json_dumps now entry_id stage result_data t = (Returned tt, t).
Proof.
  intros Hnone. unfold update_status, modify. f_equal.
  unfold sql_update, get_entry in *.
  induction t as [|e t IH]; [reflexivity|].
  cbn in Hnone |- *. destruct (String.eqb (id e) entry_id); [discriminate|].
  f_equal. apply IH, Hnone.
Qed.

Lemma update_status_unknown_id_witness :
  let now := {| year := 2025; month := 3; day := 9; hour := 14; minute := 30;
                second := 7; microsecond := 0 |} in
  let e := {| id := "u-1"; theme := SqlText "Art"; source_type := SqlText "link";
              source_url := SqlNull; entry_date := SqlText "2025-03";
              process_stage := SqlText "Done"; tags := SqlNull;
              summary_caption := SqlText "A summary"; explain_like_im_5 := SqlNull;
              file_storage_path := SqlNull;
              created_at := SqlText "2025-03-01 08:00:00";
              updated_at := SqlText "2025-03-01 08:00:05" |} in
  get_entry "u-2" [e] = None
  /\ update_status (fun _ => "[]") now "u-2" "Error" None [e] = (Returned tt, [e]).
Proof.
  intros now e. split; [reflexivity|].
  exact (update_status_unknown_id (fun _ => "[]") now "u-2" "Error" None [e] eq_refl).
Defined.

(** [update_status] never adds, removes or reorders rows and never changes
    an id: the ids of the table are the same list afterwards. *)
Lemma update_status_keeps_ids (json_dumps : list string -> string) (now : datetime)
    (entry_id stage : string) (result_data : option ResultData) (t : table) :
  map id (snd (update_status json_dumps now entry_id stage result_data t)) = map id t.
Proof.
  unfold update_status, modify, sql_update. cbn [snd].
  induction t as [|e t IH]; [reflexivity|].
  cbn [map]. rewrite IH. f_equal.
  destruct (String.eqb (id e) entry_id); [apply id_set_columns|reflexivity].
Qed.

(** X6.  Results survive a later status-only update: after results were
    written for an entry, an update without a result mapping (as the
    reprocess handler makes) changes its stage and [updated_at] and keeps
    the summary, the explanation, the tags and the storage path just
    written. *)
Theorem update_status_results_survive (json_dumps : list string -> string)
    (now1 now2 : datetime) (entry_id stage1 stage2 : string) (rd : ResultData)
    (t : table) (e : Entry) :
  get_entry entry_id t = Some e ->
  let t1 := snd (update_status json_dumps now1 entry_id stage1 (Some rd) t) in
  let t2 := snd (update_status json_dumps now2 entry_id stage2 None t1) in
  exists e2,
    get_entry entry_id t2 = Some e2
    /\ process_stage e2 = SqlText stage2
    /\ updated_at e2 = SqlText (isoformat now2)
    /\ summary_caption e2
       = result_or_old (Some rd) rd_summary_caption (fun v => v) (summary_caption e)
    /\ explain_like_im_5 e2
       = result_or_old (Some rd) rd_explain_like_im_5 (fun v => v) (explain_like_im_5 e)
    /\ tags e2
       = result_or_old (Some rd) rd_tags (fun l => SqlText (json_dumps l)) (tags e)
    /\ file_storage_path e2
       = result_or_old (Some rd) rd_file_storage_path (fun v => v) (file_storage_path e)
    /\ created_at e2 = created_at e.
Proof.
  intros He. cbv zeta. unfold update_status, modify. cbn [snd].
  rewrite !get_entry_sql_update, He. cbn [option_map].
  eexists. split; [reflexivity|].
  pose proof (update_assignments_row json_dumps now1 stage1 (Some rd) e)
    as (_ & _ & _ & Hsc & Hel & Htg & Hfp & _ & _ & _ & _ & Hca).
  pose proof (update_assignments_row json_dumps now2 stage2 None
                (set_columns (update_assignments json_dumps now1 stage1 (Some rd)) e))
    as (_ & Hps & Hua & Hsc' & Hel' & Htg' & Hfp' & _ & _ & _ & _ & Hca').
  cbn [result_or_old] in Hsc', Hel', Htg', Hfp'.
  rewrite Hps, Hua, Hsc', Hel', Htg', Hfp', Hca', Hsc, Hel, Htg, Hfp, Hca.
  repeat split; reflexivity.
Qed.

Lemma update_status_results_survive_witness :
  let now1 := {| year := 2025; month := 3; day := 9; hour := 14; minute := 30;
                 second := 7; microsecond := 0 |} in
  let now2 := {| year := 2025; month := 3; day := 10; hour := 9; minute := 0;
                 second := 0; microsecond := 0 |} in
  let e := {| id := "u-1"; theme := SqlText "Art"; source_type := SqlText "link";
              source_url := SqlNull; entry_date := SqlText "2025-03";
              process_stage := SqlText "Uploaded"; tags := SqlNull;
              summary_caption := SqlText "Processing summary...";
              explain_like_im_5 := SqlNull; file_storage_path := SqlNull;
              created_at := SqlText "2025-03-01 08:00:00";
              updated_at := SqlText "2025-03-01 08:00:00" |} in
  let rd := {| rd_summary_caption := Some (SqlText "A summary");
               rd_explain_like_im_5 := None;
               rd_tags := Some ["a"; "b"];
               rd_file_storage_path := None |} in
  let json_dumps := fun l : list string => String.concat ", " l in
  let t1 := snd (update_status json_dumps now1 "u-1" "Done" (Some rd) [e]) in
  let t2 := snd (update_status json_dumps now2 "u-1" "Uploaded" None t1) in
  get_entry "u-1" [e] = Some e
  /\ exists e2,
       get_entry "u-1" t2 = Some e2
       /\ process_stage e2 = SqlText "Uploaded"
       /\ updated_at e2 = SqlText (isoformat now2)
       /\ summary_caption e2
          = result_or_old (Some rd) rd_summary_caption (fun v => v) (summary_caption e)
       /\ explain_like_im_5 e2
          = result_or_old (Some rd) rd_explain_like_im_5 (fun v => v) (explain_like_im_5 e)
       /\ tags e2
          = result_or_old (Some rd) rd_tags (fun l => SqlText (json_dumps l)) (tags e)
       /\ file_storage_path e2
          = result_or_old (Some rd) rd_file_storage_path (fun v => v) (file_storage_path e)
       /\ created_at e2 = created_at e.
Proof.
  intros now1 now2 e rd json_dumps. cbv zeta. split; [reflexivity|].
  exact (update_status_results_survive json_dumps now1 now2 "u-1" "Done" "Uploaded"
           rd [e] e eq_refl).
Defined.

(** *** Pages *)

#[local] Instance updated_desc_trans : Transitive updated_desc.
Proof.
  intros a b c. unfold updated_desc.
  destruct (updated_at a) as [|x], (updated_at b) as [|y], (updated_at c) as [|z];
    cbn; try congruence.
  intros Hyx Hzy.
  apply Is_true_true. apply Is_true_true in Hyx, Hzy.
  change (String.le z x). change (String.le y x) in Hyx. change (String.le z y) in Hzy.
  etransitivity; eassumption.
Qed.

Lemma limit_offset_length {A} limit offset (l : list A) :
  length (limit_offset limit offset l) <= length l
  /\ ((0 <= limit)%Z -> (Z.of_nat (length (limit_offset limit offset l)) <= limit)%Z).
Proof.
  unfold limit_offset.
  pose proof (length_skipn (Z.to_nat offset) l) as Hs.
  destruct (limit <? 0)%Z eqn:Hl.
  - apply Z.ltb_lt in Hl. split; lia.
  - pose proof (firstn_le_length (Z.to_nat limit) (List.skipn (Z.to_nat offset) l)).
    pose proof (length_firstn (Z.to_nat limit) (List.skipn (Z.to_nat offset) l)).
    split; lia.
Qed.

(** X7.  A page is well formed: its rows are rows of the table that pass
    the filter, every row comes before all rows updated earlier than it,
    the page is no longer than the total count, and no longer than [limit]
    when [limit] is not negative. *)
Theorem get_paginated_entries_page (page limit : Z) (matching_ids : option (list string))
    (t : table) :
  let '(df, total_count) := get_paginated_entries page limit matching_ids t in
  StronglySorted updated_desc df
  /\ (forall e, In e df -> In e t /\ where_clause matching_ids e = true)
  /\ (Z.of_nat (length df) <= total_count)%Z
  /\ ((0 <= limit)%Z -> (Z.of_nat (length df) <= limit)%Z).
Proof.
  cbn [get_paginated_entries].
  set (selected := List.filter (where_clause matching_ids) t).
  split; [|split; [|split]].
  - apply Sorted_StronglySorted; [apply _|].
    apply limit_offset_Sorted, order_by_Sorted.
  - intros e He. apply limit_offset_In in He.
    apply (Permutation_in _ (order_by_Permutation _)) in He.
    apply filter_In in He. exact He.
  - pose proof (proj1 (limit_offset_length limit ((page - 1) * limit)
                         (order_by_updated_at_desc selected))) as Hlen.
    rewrite (Permutation_length (order_by_Permutation selected)) in Hlen.
    lia.
  - apply limit_offset_length.
Qed.






(** X9.  A page number of 1 or less reads the first page: with parameters
    SQLite can bind, page 0 and negative pages give a negative offset,
    which counts as 0. *)
Theorem get_paginated_entries_page_below_one (page limit : Z)
    (matching_ids : option (list string)) (t : table) :
  (page <= 1)%Z ->
  (0 <= limit)%Z ->
  page_in_range page limit ->
  page_in_range 1 limit
  /\ get_paginated_entries page limit matching_ids t
     = get_paginated_entries 1 limit matching_ids t.
Proof.
  intros Hpage Hlimit [Hl Ho]. split.
  - split; [exact Hl|]. unfold sqlite_int. lia.
  - unfold get_paginated_entries, limit_offset.
    replace (Z.to_nat ((page - 1) * limit)) with 0 by nia.
    replace (Z.to_nat ((1 - 1) * limit)) with 0 by nia.
    reflexivity.
Qed.

Lemma get_paginated_entries_page_below_one_witness :
  let e := {| id := "a"; theme := SqlText "Art"; source_type := SqlText "link";
              source_url := SqlNull; entry_date := SqlText "2025-03";
              process_stage := SqlText "Uploaded"; tags := SqlNull;
              summary_caption := SqlText "Processing summary...";
              explain_like_im_5 := SqlNull; file_storage_path := SqlNull;
              created_at := SqlText "2025-03-01 08:00:00";
              updated_at := SqlText "2025-03-01 08:00:00" |} in
  (0 <= 1)%Z /\ (0 <= 10)%Z
  /\ page_in_range 0 10
  /\ page_in_range 1 10
  /\ get_paginated_entries 0 10 (Some ["a"]) [e]
     = get_paginated_entries 1 10 (Some ["a"]) [e].
Proof.
  intros e.
  assert (H1 : (0 <= 1)%Z) by lia. assert (H2 : (0 <= 10)%Z) by lia.
  assert (Hr : page_in_range 0 10) by (unfold page_in_range, sqlite_int; cbn; lia).
  split; [exact H1|]. split; [exact H2|]. split; [exact Hr|].
  exact (get_paginated_entries_page_below_one 0 10 (Some ["a"]) [e] H1 H2 Hr).
Defined.



End DatabaseTheory.

(* ===================================================================== *)
(** ** Properties of the analysis chain (llm_chain.py) *)
(* ===================================================================== *)

Module LlmChainTheory.
Import Py LlmChain.

Section Chain.
Variable format_instructions : string.
Variable llm : string -> outcome string.
Variable parser : string -> outcome TextAnalysis.

(** The chain raises what the model or the parser raises, and prints
    nothing. *)
Lemma chain_invoke_outcome text out :
  chain_invoke format_instructions llm parser text out
  = (match llm (prompt format_instructions text) with
     | Returned message => parser message
     | Raised e => Raised e
     end, out).
Proof.
  unfold chain_invoke, bind, call.
  destruct (llm _); reflexivity.
Qed.

Lemma dict_fields r :
  dict r !! "summary" = Some (PyStr (summary r))
  /\ dict r !! "eli5" = Some (PyStr (eli5 r))
  /\ dict r !! "tags" = Some (PyList (tags r))
  /\ dom (dict r) = ({["summary"; "eli5"; "tags"]} : gset string).
Proof.
  unfold dict. split; [|split; [|split]].
  - apply lookup_insert_eq.
  - rewrite lookup_insert_ne by discriminate. apply lookup_insert_eq.
  - rewrite !lookup_insert_ne by discriminate. apply lookup_insert_eq.
  - rewrite !dom_insert_L, dom_empty_L. set_solver.
Qed.

(** C5.  Whatever the model call or the parser raises,
    [analyze_text_content] returns the fallback mapping (and prints the
    error); when both succeed it returns the mapping of the parsed
    result's [summary], [eli5] and [tags].  It never raises. *)
Theorem analyze_text_content_degrades (text : string) (out : list string) :
  let fallback : gmap string pyval :=
    <["summary" := PyStr "Error generating summary"]>
      (<["eli5" := PyStr "Error"]> (<["tags" := PyList ["error"]]> ∅)) in
  let result := analyze_text_content format_instructions llm parser text out in
  let degraded e := result = (Returned fallback, out ++ ["LLM Error: " +:+ exn_str e]) in
  match llm (prompt format_instructions text) with
  | Raised e => degraded e
  | Returned message =>
      match parser message with
      | Raised e => degraded e
      | Returned r =>
          exists m, result = (Returned m, out)
                    /\ m !! "summary" = Some (PyStr (summary r))
                    /\ m !! "eli5" = Some (PyStr (eli5 r))
                    /\ m !! "tags" = Some (PyList (tags r))
                    /\ dom m = ({["summary"; "eli5"; "tags"]} : gset string)
      end
  end.
Proof.
  cbv zeta.
  unfold analyze_text_content, try_except, bind, ret, print, modify.
  rewrite chain_invoke_outcome.
  destruct (llm _) as [message|e]; [destruct (parser message) as [r|e]|].
  - exists (dict r). split; [reflexivity|apply dict_fields].
  - reflexivity.
  - reflexivity.
Qed.
End Chain.

(** A model that times out, a parser that rejects the answer, and a good
    answer. *)
Example analyze_text_content_examples :
  let good := {| summary := "S"; eli5 := "E"; tags := ["a"; "b"] |} in
  let fallback : gmap string pyval :=
    <["summary" := PyStr "Error generating summary"]>
      (<["eli5" := PyStr "Error"]> (<["tags" := PyList ["error"]]> ∅)) in
  analyze_text_content "fmt" (fun _ => Raised (ConnectionError "timed out"))
    (fun _ => Returned good) "text" []
  = (Returned fallback, ["LLM Error: timed out"])
  /\ analyze_text_content "fmt" (fun _ => Returned "not json")
       (fun _ => Raised (OutputParserException "Invalid json output")) "text" []
     = (Returned fallback, ["LLM Error: Invalid json output"])
  /\ analyze_text_content "fmt" (fun _ => Returned "{...}")
       (fun _ => Returned good) "text" []
     = (Returned (dict good), []).
Proof. repeat split. Qed.

End LlmChainTheory.

(* ===================================================================== *)
(** ** Properties of the processing utilities (processing.py) *)
(* ===================================================================== *)

Module ProcessingTheory.
Import Py Processing PyTheory.

(** *** [Image.thumbnail] *)

Local Open Scope Z_scope.

Lemma ceil_div_le a b c : 0 < b -> a <= c * b -> ceil_div a b <= c.
Proof.
  intros Hb Ha. unfold ceil_div.
  assert (- c <= - a / b) by (apply Z.div_le_lower_bound; lia).
  lia.
Qed.

Lemma floor_div_le a b c : 0 < b -> a <= c * b -> a / b <= c.
Proof. intros Hb Ha. apply Z.div_le_upper_bound; lia. Qed.

Lemma round_aspect_bounds lo hi key c :
  1 <= c -> lo <= c -> hi <= c -> 1 <= round_aspect lo hi key <= c.
Proof. intros. unfold round_aspect. destruct (key lo hi); lia. Qed.

(** The size a thumbnail gets lies within the box and within the image: no
    side grows, no side is 0. *)
Lemma thumbnail_size_fits x y w h w' h' :
  0 < x -> 0 < y -> 0 < w -> 0 < h ->
  thumbnail_size x y w h = Some (w', h') ->
  (1 <= w' <= x /\ w' <= w) /\ (1 <= h' <= y /\ h' <= h).
Proof.
  intros Hx Hy Hw Hh. unfold thumbnail_size.
  destruct ((w <=? x) && (h <=? y)) eqn:Hfit; [discriminate|].
  apply andb_false_iff in Hfit.
  destruct (w * y <=? x * h) eqn:Hasp; intros [= <- <-].
  - apply Z.leb_le in Hasp.
    assert (y < h) by (destruct Hfit as [H|H]; apply Z.leb_gt in H; nia).
    assert (1 <= round_aspect (y * w / h) (ceil_div (y * w) h)
                   (fun a b => Z.abs (w * y - a * h) <=? Z.abs (w * y - b * h))
            <= Z.min x w).
    { apply round_aspect_bounds; [lia| |].
      - apply floor_div_le; [lia|]. apply Z.min_case; nia.
      - apply ceil_div_le; [lia|]. apply Z.min_case; nia. }
    lia.
  - apply Z.leb_gt in Hasp.
    assert (x < w) by (destruct Hfit as [H|H]; apply Z.leb_gt in H; nia).
    match goal with |- context [round_aspect ?lo ?hi ?k] =>
      assert (1 <= round_aspect lo hi k <= Z.min y h)
    end.
    { apply round_aspect_bounds; [lia| |].
      - apply floor_div_le; [lia|]. apply Z.min_case; nia.
      - apply ceil_div_le; [lia|]. apply Z.min_case; nia. }
    lia.
Qed.

(** An image that fits the box is left alone. *)
Lemma thumbnail_size_small x y w h :
  w <= x -> h <= y -> thumbnail_size x y w h = None.
Proof.
  intros Hw Hh. unfold thumbnail_size.
  apply Z.leb_le in Hw, Hh. now rewrite Hw, Hh.
Qed.

Example thumbnail_size_4000x3000 :
  thumbnail_size 1920 1920 4000 3000 = Some (1920, 1440)
  /\ thumbnail_size 1920 1920 3000 4000 = Some (1440, 1920)
  /\ thumbnail_size 1920 1920 5000 1 = Some (1920, 1)
  /\ thumbnail_size 1920 1920 640 480 = None.
Proof. repeat split. Qed.

Local Close Scope Z_scope.

(** *** [resize_image_for_storage] *)

Section Image.
Variable pixels : Type.
Variable Image_open : bytes -> outcome (Image pixels).
Variable convert_data : string -> string -> pixels -> pixels.
Variable lanczos : Z * Z -> Z * Z -> pixels -> pixels.
Variable jpeg_encode : Image pixels -> Z -> bytes.

Abbreviation resize := (resize_image_for_storage pixels Image_open convert_data lanczos jpeg_encode).
Abbreviation shrink := (thumbnail pixels lanczos).

Lemma mode_thumbnail img sz : mode pixels (shrink img sz) = mode pixels img.
Proof.
  unfold thumbnail.
  destruct (thumbnail_size _ _ _ _) as [[w' h']|]; reflexivity.
Qed.

(** A decoding failure is printed and raised again. *)
Lemma resize_decode_failure b e out :
  Image_open b = Raised e ->
  resize b out = (Raised e, out ++ ["Resize Error: " +:+ exn_str e]).
Proof.
  intros H. unfold resize_image_for_storage, try_except, bind, call.
  rewrite H. reflexivity.
Qed.

(** An image in mode RGBA or P is converted to RGB, shrunk and encoded at
    quality 85; the stream is returned at position 0. *)
Lemma resize_converted b img out :
  Image_open b = Returned img ->
  mode pixels img = "RGBA" \/ mode pixels img = "P" ->
  let stored := shrink (convert pixels convert_data img "RGB") (1920, 1920)%Z in
  resize b out
  = (Returned {| getvalue := jpeg_encode stored 85; tell := 0 |}, out)
  /\ mode pixels stored = "RGB".
Proof.
  intros H Hm. cbv zeta.
  unfold resize_image_for_storage, try_except, bind, call, save_jpeg, ret.
  rewrite H.
  assert (Hc : existsb (String.eqb (mode pixels img)) ["RGBA"; "P"] = true).
  { destruct Hm as [-> | ->]; reflexivity. }
  rewrite Hc, mode_thumbnail. cbn. split; reflexivity.
Qed.

(** An image whose mode is neither converted nor accepted by the JPEG
    writer makes the call raise. *)
Lemma resize_unwritable b img out :
  Image_open b = Returned img ->
  existsb (String.eqb (mode pixels img)) ["RGBA"; "P"] = false ->
  jpeg_writable (mode pixels img) = false ->
  let msg := "cannot write mode " +:+ mode pixels img +:+ " as JPEG" in
  resize b out = (Raised (OSError msg), out ++ ["Resize Error: " +:+ msg]).
Proof.
  intros H Hc Hw. cbv zeta.
  unfold resize_image_for_storage, try_except, bind, call, save_jpeg, raise.
  rewrite H, Hc, mode_thumbnail, Hw. reflexivity.
Qed.

(** C7, at the failing inputs.  An image whose mode has an alpha band but
    is not RGBA (LA, PA, RGBa, La) is not converted to RGB: the JPEG writer
    refuses it, and the call prints the error and raises [OSError], where
    the claim wants the image converted and a JPEG stream returned. *)
Theorem resize_image_for_storage_alpha_not_converted b img out :
  Image_open b = Returned img ->
  has_alpha (mode pixels img) = true ->
  mode pixels img <> "RGBA" ->
  let msg := "cannot write mode " +:+ mode pixels img +:+ " as JPEG" in
  resize b out = (Raised (OSError msg), out ++ ["Resize Error: " +:+ msg]).
Proof.
  intros H Ha Hne.
  assert (Hm : In (mode pixels img) ["LA"; "PA"; "RGBa"; "La"]).
  { unfold has_alpha in Ha. apply existsb_exists in Ha as [m [Hin Heq]].
    apply String.eqb_eq in Heq. subst m.
    cbn in Hin |- *. intuition congruence. }
  apply resize_unwritable; [exact H| |];
    cbn in Hm; destruct Hm as [<-|[<-|[<-|[<-|[]]]]]; reflexivity.
Qed.
End Image.

Lemma resize_image_for_storage_alpha_not_converted_witness :
  let img := {| mode := "LA"; width := 64; height := 48; data := tt |} in
  let open := fun _ : bytes => Returned img in
  open [] = Returned img
  /\ has_alpha (mode unit img) = true
  /\ mode unit img <> "RGBA"
  /\ resize_image_for_storage unit open (fun _ _ p => p) (fun _ _ p => p)
       (fun _ _ => []) [] []
     = (Raised (OSError "cannot write mode LA as JPEG"),
        ["Resize Error: cannot write mode LA as JPEG"]).
Proof.
  intros img open.
  assert (Hne : mode unit img <> "RGBA") by discriminate.
  split; [reflexivity|split; [reflexivity|split; [exact Hne|]]].
  exact (resize_image_for_storage_alpha_not_converted unit open
           (fun _ _ p => p) (fun _ _ p => p) (fun _ _ => []) [] img []
           eq_refl eq_refl Hne).
Defined.

(** *** [scrape_website] *)

Section Scrape.
Variable requests_get : Request -> outcome Response.
Variable BeautifulSoup : bytes -> outcome (list node).

(** C8, amended.  [scrape_website] sends one GET for the URL with the
    header [User-Agent: Mozilla/5.0] and a timeout of 10 seconds.  When
    the request raises, the status is 4xx or 5xx, or the parser raises,
    the error is printed and raised again and no mapping is returned.
    Otherwise the mapping holds exactly [title] and [text]: [title] is the
    [.string] of the first title element ([None] when that element does not
    hold exactly one string) or [""] when there is no title element;
    [text] is the text of every paragraph element, each followed by a
    newline, cut to its first 10000 characters. *)
Theorem scrape_website_spec (url : string) (out : list string) :
  let request := {| req_url := url;
                    req_headers := [("User-Agent", "Mozilla/5.0")];
                    req_timeout := 10 |} in
  let result := scrape_website requests_get BeautifulSoup url out in
  let failed e := result = (Raised e, out ++ ["Scrape Error: " +:+ exn_str e]) in
  match requests_get request with
  | Raised e => failed e
  | Returned response =>
      if ((400 <=? status_code response) && (status_code response <? 600))%Z
      then failed (HTTPError (status_code response))
      else
        match BeautifulSoup (content response) with
        | Raised e => failed e
        | Returned soup =>
            exists title text,
              result = (Returned (<["title" := title]> (<["text" := PyStr text]> ∅)), out)
              /\ title = match find "title" soup with
                         | Some t => pystr (tag_string t)
                         | None => PyStr ""
                         end
              /\ text = slice_to 10000
                          (String.concat ""
                             (map (fun p => get_text p +:+ newline) (find_all "p" soup)))
              /\ (Z.of_nat (String.length text) <= 10000)%Z
        end
  end.
Proof.
  cbv zeta.
  unfold scrape_website, try_except, bind, call, raise_for_status, raise, ret,
    print, modify.
  destruct (requests_get _) as [response|e]; [|reflexivity].
  destruct ((400 <=? status_code response) && (status_code response <? 600))%Z;
    [reflexivity|].
  destruct (BeautifulSoup _) as [soup|e]; [|reflexivity].
  eexists _, _. split; [reflexivity|]. split; [reflexivity|].
  rewrite fold_left_append. split; [reflexivity|].
  unfold slice_to.
  match goal with |- context [String.substring 0 ?n ?s] =>
    pose proof (substring_length_le n s)
  end.
  lia.
Qed.
End Scrape.

(** C8, the claim as stated fails.  On a page with an empty title element
    and the single paragraph [x], the title returned is [None], neither the
    page title nor [""], and the text is [x] followed by a newline, where
    paragraphs separated by newlines give [x]. *)
Lemma scrape_website_title_none_trailing_newline :
  let page := [Tag "html"
                 [Tag "head" [Tag "title" []];
                  Tag "body" [Tag "p" [NavigableString "x"]]]] in
  let result := scrape_website
                  (fun _ => Returned {| status_code := 200; content := [] |})
                  (fun _ => Returned page) "https://example.org" [] in
  result = (Returned (<["title" := PyNone]> (<["text" := PyStr ("x" +:+ newline)]> ∅)), [])
  /\ result <> (Returned (<["title" := PyStr ""]> (<["text" := PyStr "x"]> ∅)), []).
Proof.
  cbv zeta.
  split; [vm_compute; reflexivity|].
  intros Heq.
  assert (Hl : forall m : gmap string pyval,
            (Returned m, @nil string)
            = (Returned (<["title" := PyStr ""]> (<["text" := PyStr "x"]> ∅)), [])
            -> m !! "title" = Some (PyStr "")).
  { intros m [= ->]. reflexivity. }
  apply Hl in Heq. vm_compute in Heq. discriminate.
Qed.

(** *** Further properties of the processing utilities *)

Lemma substring_all n (s : string) : String.length s <= n -> String.substring 0 n s = s.
Proof.
  revert s. induction n as [|n IH]; intros [|c s] Hlen; cbn in *; try reflexivity; [lia|].
  f_equal. apply IH. lia.
Qed.

Section Stored.
Variable pixels : Type.
Variable Image_open : bytes -> outcome (Image pixels).
Variable convert_data : string -> string -> pixels -> pixels.
Variable lanczos : Z * Z -> Z * Z -> pixels -> pixels.
Variable jpeg_encode : Image pixels -> Z -> bytes.

Abbreviation resize :=
  (resize_image_for_storage pixels Image_open convert_data lanczos jpeg_encode).
Abbreviation shrink := (thumbnail pixels lanczos).

Lemma thumbnail_fits (img : Image pixels) :
  (0 < width pixels img)%Z -> (0 < height pixels img)%Z ->
  let small := shrink img (1920, 1920)%Z in
  (1 <= width pixels small <= 1920)%Z /\ (1 <= height pixels small <= 1920)%Z
  /\ (width pixels small <= width pixels img)%Z
  /\ (height pixels small <= height pixels img)%Z
  /\ ((width pixels img <= 1920)%Z -> (height pixels img <= 1920)%Z -> small = img).
Proof.
  intros Hw Hh. cbv zeta. unfold thumbnail. cbn [fst snd].
  destruct (thumbnail_size 1920 1920 (width pixels img) (height pixels img))
    as [[w' h']|] eqn:Hsize.
  - pose proof (thumbnail_size_fits 1920 1920 _ _ w' h' ltac:(lia) ltac:(lia) Hw Hh Hsize).
    cbn [width height]. repeat split; try lia.
    intros Hw' Hh'. rewrite (thumbnail_size_small 1920 1920 _ _ Hw' Hh') in Hsize.
    discriminate.
  - unfold thumbnail_size in Hsize.
    destruct ((width pixels img <=? 1920)%Z && (height pixels img <=? 1920)%Z) eqn:Hfit.
    + apply andb_true_iff in Hfit as [H1 H2]. apply Z.leb_le in H1, H2.
      repeat split; lia.
    + destruct (_ <=? _)%Z in Hsize; discriminate.
Qed.

(** X22.  What gets stored fits the box: for a decodable image of
    positive size whose mode is RGBA, P or one the JPEG writer accepts, the
    call returns, at position 0, the JPEG encoding at quality 85 of an
    image that is at most 1920 pixels wide and high, no larger than the
    original on either side, at least 1 pixel on each, and identical in
    size to the original when that already fits; its mode is RGB when the
    original was RGBA or P. *)
Theorem resize_image_for_storage_fits (b : bytes) (img : Image pixels)
    (out : list string) :
  Image_open b = Returned img ->
  (0 < width pixels img)%Z ->
  (0 < height pixels img)%Z ->
  existsb (String.eqb (mode pixels img)) ["RGBA"; "P"] = true
  \/ jpeg_writable (mode pixels img) = true ->
  exists stored,
    resize b out = (Returned {| getvalue := jpeg_encode stored 85; tell := 0 |}, out)
    /\ mode pixels stored
       = (if existsb (String.eqb (mode pixels img)) ["RGBA"; "P"]
          then "RGB" else mode pixels img)
    /\ (1 <= width pixels stored <= 1920)%Z
    /\ (1 <= height pixels stored <= 1920)%Z
    /\ (width pixels stored <= width pixels img)%Z
    /\ (height pixels stored <= height pixels img)%Z
    /\ ((width pixels img <= 1920)%Z -> (height pixels img <= 1920)%Z ->
        width pixels stored = width pixels img
        /\ height pixels stored = height pixels img).
Proof.
  intros Hopen Hw Hh Hmode.
  unfold resize_image_for_storage, try_except, bind, call, save_jpeg, ret, raise.
  rewrite Hopen.
  set (img' := if existsb (String.eqb (mode pixels img)) ["RGBA"; "P"]
               then convert pixels convert_data img "RGB" else img).
  assert (Hdims : width pixels img' = width pixels img
                  /\ height pixels img' = height pixels img).
  { unfold img'. destruct (existsb _ _); split; reflexivity. }
  assert (Hm : mode pixels img'
               = if existsb (String.eqb (mode pixels img)) ["RGBA"; "P"]
                 then "RGB" else mode pixels img).
  { unfold img'. destruct (existsb _ _); reflexivity. }
  assert (Hwr : jpeg_writable (mode pixels img') = true).
  { rewrite Hm. destruct (existsb _ _) eqn:Hc; [reflexivity|].
    destruct Hmode as [H|H]; [discriminate|exact H]. }
  destruct Hdims as [Hdw Hdh].
  pose proof (thumbnail_fits img' ltac:(lia) ltac:(lia)) as (H1 & H2 & H3 & H4 & H5).
  rewrite (mode_thumbnail pixels lanczos), Hwr.
  exists (shrink img' (1920, 1920)%Z).
  split; [reflexivity|].
  split; [rewrite (mode_thumbnail pixels lanczos); exact Hm|].
  repeat split; try lia.
  - rewrite H5 by lia. exact Hdw.
  - rewrite H5 by lia. exact Hdh.
Qed.

(** X23.  Success is silent and failure is printed once: whenever the call
    returns, nothing was printed, the stream is at position 0 and holds the
    JPEG encoding at quality 85 of an image in a mode the writer accepts;
    whenever it raises, exactly the line "Resize Error: ..." with that
    exception was printed. *)
Theorem resize_image_for_storage_log (b : bytes) (out : list string) :
  match resize b out with
  | (Returned io, out') =>
      out' = out /\ tell io = 0
      /\ exists stored, getvalue io = jpeg_encode stored 85
                        /\ jpeg_writable (mode pixels stored) = true
  | (Raised e, out') => out' = out ++ ["Resize Error: " +:+ exn_str e]
  end.
Proof.
  unfold resize_image_for_storage, try_except, bind, call, save_jpeg, ret, raise,
    print, modify.
  destruct (Image_open b) as [img|e]; [|reflexivity].
  match goal with |- context [jpeg_writable ?m] => destruct (jpeg_writable m) eqn:Hw end.
  - cbn. repeat split. eexists. split; [reflexivity|exact Hw].
  - reflexivity.
Qed.
End Stored.

Lemma resize_image_for_storage_fits_witness :
  let img := {| mode := "RGBA"; width := 4000%Z; height := 3000%Z; data := tt |} in
  let open := fun _ : bytes => Returned img in
  let encode := fun (i : Image unit) (_ : Z) => @nil Byte.byte in
  open [] = Returned img
  /\ (0 < width unit img)%Z
  /\ (0 < height unit img)%Z
  /\ (existsb (String.eqb (mode unit img)) ["RGBA"; "P"] = true
      \/ jpeg_writable (mode unit img) = true)
  /\ exists stored,
       resize_image_for_storage unit open (fun _ _ p => p) (fun _ _ p => p) encode [] []
       = (Returned {| getvalue := encode stored 85%Z; tell := 0 |}, [])
       /\ mode unit stored
          = (if existsb (String.eqb (mode unit img)) ["RGBA"; "P"]
             then "RGB" else mode unit img)
       /\ (1 <= width unit stored <= 1920)%Z
       /\ (1 <= height unit stored <= 1920)%Z
       /\ (width unit stored <= width unit img)%Z
       /\ (height unit stored <= height unit img)%Z
       /\ ((width unit img <= 1920)%Z -> (height unit img <= 1920)%Z ->
           width unit stored = width unit img
           /\ height unit stored = height unit img).
Proof.
  intros img open encode.
  assert (Hw : (0 < width unit img)%Z) by (cbn; lia).
  assert (Hh : (0 < height unit img)%Z) by (cbn; lia).
  assert (Hm : existsb (String.eqb (mode unit img)) ["RGBA"; "P"] = true
               \/ jpeg_writable (mode unit img) = true) by (left; reflexivity).
  split; [reflexivity|]. split; [exact Hw|]. split; [exact Hh|]. split; [exact Hm|].
  exact (resize_image_for_storage_fits unit open (fun _ _ p => p) (fun _ _ p => p)
           encode [] img [] eq_refl Hw Hh Hm).
Defined.

Section Pages.
Variable requests_get : Request -> outcome Response.
Variable BeautifulSoup : bytes -> outcome (list node).

(** X24.  A short page is not cut: when the request and the parser succeed
    and the paragraphs with their newlines hold at most 10000 characters,
    [text] is all of them. *)
Theorem scrape_website_short_page (url : string) (out : list string)
    (response : Response) (soup : list node) :
  requests_get {| req_url := url; req_headers := [("User-Agent", "Mozilla/5.0")];
                  req_timeout := 10 |} = Returned response ->
  ((400 <=? status_code response) && (status_code response <? 600))%Z = false ->
  BeautifulSoup (content response) = Returned soup ->
  let full := String.concat ""
                (map (fun p => get_text p +:+ newline) (find_all "p" soup)) in
  (Z.of_nat (String.length full) <= 10000)%Z ->
  exists m,
    scrape_website requests_get BeautifulSoup url out = (Returned m, out)
    /\ m !! "text" = Some (PyStr full)
    /\ dom m = ({["title"; "text"]} : gset string).
Proof.
  intros Hget Hstatus Hsoup full Hlen.
  unfold scrape_website, try_except, bind, call, raise_for_status, raise, ret.
  rewrite Hget, Hstatus, Hsoup.
  eexists. split; [reflexivity|].
  rewrite fold_left_append.
  change ("" +:+ ?x) with x. fold full.
  unfold slice_to. rewrite substring_all by lia.
  split.
  - rewrite lookup_insert_ne by discriminate. apply lookup_insert_eq.
  - rewrite !dom_insert_L, dom_empty_L. set_solver.
Qed.
End Pages.

Lemma scrape_website_short_page_witness :
  let page := [Tag "html"
                 [Tag "head" [Tag "title" [NavigableString "T"]];
                  Tag "body" [Tag "p" [NavigableString "one"];
                              Tag "p" [NavigableString "two"]]]] in
  let response := {| status_code := 200; content := [] |} in
  let fetch := fun _ : Request => Returned response in
  let parse := fun _ : bytes => Returned page in
  let full := String.concat ""
                (map (fun p => get_text p +:+ newline) (find_all "p" page)) in
  fetch {| req_url := "https://example.org";
           req_headers := [("User-Agent", "Mozilla/5.0")];
           req_timeout := 10 |} = Returned response
  /\ ((400 <=? status_code response) && (status_code response <? 600))%Z = false
  /\ parse (content response) = Returned page
  /\ (Z.of_nat (String.length full) <= 10000)%Z
  /\ exists m,
       scrape_website fetch parse "https://example.org" [] = (Returned m, [])
       /\ m !! "text" = Some (PyStr full)
       /\ dom m = ({["title"; "text"]} : gset string).
Proof.
  intros page response fetch parse full.
  assert (Hlen : (Z.of_nat (String.length full) <= 10000)%Z) by (vm_compute; discriminate).
  split; [reflexivity|]. split; [reflexivity|]. split; [reflexivity|].
  split; [exact Hlen|].
  exact (scrape_website_short_page fetch parse "https://example.org" [] response page
           eq_refl eq_refl eq_refl Hlen).
Defined.

End ProcessingTheory.

(* ===================================================================== *)
(** ** Properties of the storage adapter (storage.py) *)
(* ===================================================================== *)

Module StorageTheory.
Import Py Storage PyTheory.

Lemma split_first_at_sep sep (a b : string) :
  ~ In sep (list_ascii_of_string a) ->
  split_first sep (a +:+ String sep b) = Some (a, b).
Proof.
  induction a as [|c a IH]; intros Hno.
  - change ("" +:+ String sep b) with (String sep b). cbn [split_first].
    now rewrite Ascii.eqb_refl.
  - rewrite append_cons. cbn [split_first]. cbn in Hno.
    destruct (Ascii.eqb_spec c sep) as [->|Hne]; [tauto|].
    rewrite IH by tauto. reflexivity.
Qed.

Lemma split_first_no_sep sep (s : string) :
  ~ In sep (list_ascii_of_string s) -> split_first sep s = None.
Proof.
  induction s as [|c s IH]; intros Hno; [reflexivity|].
  cbn [split_first]. cbn in Hno.
  destruct (Ascii.eqb_spec c sep) as [->|Hne]; [tauto|].
  rewrite IH by tauto. reflexivity.
Qed.

Section S3.
Variable S3 : Type.
Variable BUCKET_NAME : string.
Variable head_bucket : string -> M S3 unit.
Variable create_bucket : string -> M S3 unit.
Variable upload_fileobj : bytes -> string -> string -> option string -> M S3 unit.
Variable get_object : string -> string -> M S3 bytes.

(** X11.  The client is created outside the [try]: when its creation
    raises, [upload_file] and [download_file_obj] raise that exception
    instead of returning [None]; nothing is printed and the store is not
    touched. *)
Theorem client_failure_escapes (e : exn) (data : bytes) (name : string)
    (content_type : option string) (st : S3 * list string) :
  upload_file S3 BUCKET_NAME (Raised e) head_bucket create_bucket upload_fileobj
    data name content_type st = (Raised e, st)
  /\ download_file_obj S3 (Raised e) get_object name st = (Raised e, st).
Proof. split; reflexivity. Qed.

(** X12.  Once the client exists, [upload_file] never raises: it returns
    the location [bucket/object_name] and prints nothing, or it returns
    [None] and prints one line "Upload Error: ..." with the error of the
    call that failed. *)
Theorem upload_file_never_raises (data : bytes) (name : string)
    (content_type : option string) (st : S3 * list string) :
  exists r st',
    upload_file S3 BUCKET_NAME (Returned tt) head_bucket create_bucket upload_fileobj
      data name content_type st = (Returned r, st')
    /\ ((r = Some (BUCKET_NAME +:+ "/" +:+ name) /\ snd st' = snd st)
        \/ (r = None /\ exists e, snd st' = snd st ++ ["Upload Error: " +:+ exn_str e])).
Proof.
  unfold upload_file, bind, call, try_except, ret, on_s3, zoom, print, modify.
  repeat (cbn [fst snd];
          match goal with
          | |- context [head_bucket ?b ?s] =>
              destruct (head_bucket b s) as [[?|?] ?]
          | |- context [create_bucket ?b ?s] =>
              destruct (create_bucket b s) as [[?|?] ?]
          | |- context [upload_fileobj ?d ?b ?k ?c ?s] =>
              destruct (upload_fileobj d b k c s) as [[?|?] ?]
          end);
    cbn [fst snd]; eexists _, _; (split; [reflexivity|]); cbn [fst snd];
    first [left; split; reflexivity | right; split; [reflexivity|eexists; reflexivity]].
Qed.

(** X13.  The bucket is created only when the check fails: when
    [head_bucket] returns, the outcome of [upload_file] is that of
    [upload_fileobj] on the store the check left, whatever [create_bucket]
    would do. *)
Theorem upload_file_bucket_exists (data : bytes) (name : string)
    (content_type : option string) (st : S3 * list string) (s1 : S3) :
  head_bucket BUCKET_NAME (fst st) = (Returned tt, s1) ->
  upload_file S3 BUCKET_NAME (Returned tt) head_bucket create_bucket upload_fileobj
    data name content_type st
  = match upload_fileobj data BUCKET_NAME name
            (if truthy content_type then content_type else None) s1 with
    | (Returned _, s2) => (Returned (Some (BUCKET_NAME +:+ "/" +:+ name)), (s2, snd st))
    | (Raised e, s2) => (Returned None, (s2, snd st ++ ["Upload Error: " +:+ exn_str e]))
    end.
Proof.
  intros Hhead.
  unfold upload_file, bind, call, try_except, ret, on_s3, zoom, print, modify.
  cbn [fst snd]. rewrite Hhead. cbn [fst snd].
  destruct (upload_fileobj _ _ _ _ s1) as [[u|e] s2]; reflexivity.
Qed.

(** X14.  Without a bucket, the bucket is created before the upload: when
    [head_bucket] raises, [create_bucket] runs on the store the check left;
    if it raises too the file is not uploaded and [None] is returned. *)
Theorem upload_file_bucket_missing (data : bytes) (name : string)
    (content_type : option string) (st : S3 * list string) (s1 : S3) (e : exn) :
  head_bucket BUCKET_NAME (fst st) = (Raised e, s1) ->
  upload_file S3 BUCKET_NAME (Returned tt) head_bucket create_bucket upload_fileobj
    data name content_type st
  = match create_bucket BUCKET_NAME s1 with
    | (Raised e', s2) => (Returned None, (s2, snd st ++ ["Upload Error: " +:+ exn_str e']))
    | (Returned _, s2) =>
        match upload_fileobj data BUCKET_NAME name
                (if truthy content_type then content_type else None) s2 with
        | (Returned _, s3) => (Returned (Some (BUCKET_NAME +:+ "/" +:+ name)), (s3, snd st))
        | (Raised e', s3) =>
            (Returned None, (s3, snd st ++ ["Upload Error: " +:+ exn_str e']))
        end
    end.
Proof.
  intros Hhead.
  unfold upload_file, bind, call, try_except, ret, on_s3, zoom, print, modify.
  cbn [fst snd]. rewrite Hhead. cbn [fst snd].
  destruct (create_bucket BUCKET_NAME s1) as [[u|e'] s2]; cbn [fst snd]; [|reflexivity].
  destruct (upload_fileobj _ _ _ _ s2) as [[u'|e'] s3]; reflexivity.
Qed.

(** X15.  A location returned by [upload_file] is read back from the same
    bucket and key: when the bucket name holds no [/],
    [download_file_obj] on [bucket/object_name] asks the store for
    [object_name] in [bucket] (the key may hold slashes) and returns its
    content, or [None] with one line "Download Error: ..." when the store
    raises. *)
Theorem download_reads_uploaded_location (name : string) (st : S3 * list string) :
  ~ In "/"%char (list_ascii_of_string BUCKET_NAME) ->
  download_file_obj S3 (Returned tt) get_object (BUCKET_NAME +:+ "/" +:+ name) st
  = match get_object BUCKET_NAME name (fst st) with
    | (Returned body, s') => (Returned (Some body), (s', snd st))
    | (Raised e, s') => (Returned None, (s', snd st ++ ["Download Error: " +:+ exn_str e]))
    end.
Proof.
  intros Hno.
  unfold download_file_obj, bind, call.
  change ("/" +:+ name) with (String "/"%char name).
  rewrite (split_first_at_sep _ _ _ Hno).
  unfold try_except, bind, ret, on_s3, zoom, print, modify. cbn [fst snd].
  destruct (get_object BUCKET_NAME name st.1) as [[body|e] s']; reflexivity.
Qed.

(** X16.  A path without [/] cannot be unpacked into bucket and key: the
    store is not asked for anything, one error line is printed and [None]
    is returned. *)
Theorem download_path_without_slash (object_path : string) (st : S3 * list string) :
  ~ In "/"%char (list_ascii_of_string object_path) ->
  download_file_obj S3 (Returned tt) get_object object_path st
  = (Returned None,
     (fst st,
      snd st ++ ["Download Error: not enough values to unpack (expected 2, got 1)"])).
Proof.
  intros Hno. unfold download_file_obj, bind, call.
  rewrite (split_first_no_sep _ _ Hno). reflexivity.
Qed.
End S3.

Lemma upload_file_bucket_exists_witness :
  let head := fun (_ : string) (s : list (string * string)) => (Returned tt, s) in
  let create := fun (_ : string) (s : list (string * string)) =>
                  (@Raised unit (OSError "BucketAlreadyExists"), s) in
  let put := fun (_ : bytes) (b k : string) (_ : option string)
                 (s : list (string * string)) => (Returned tt, s ++ [(b, k)]) in
  head "knowledge-repo" [] = (Returned tt, [])
  /\ upload_file (list (string * string)) "knowledge-repo" (Returned tt) head create put
       [] "temp/a.png" None ([], [])
     = (Returned (Some "knowledge-repo/temp/a.png"),
        ([("knowledge-repo", "temp/a.png")], [])).
Proof.
  intros head create put. split; [reflexivity|].
  exact (upload_file_bucket_exists (list (string * string)) "knowledge-repo"
           head create put [] "temp/a.png" None ([], []) [] eq_refl).
Defined.

Lemma upload_file_bucket_missing_witness :
  let head := fun (_ : string) (s : list (string * string)) =>
                (@Raised unit (OSError "Not Found"), s) in
  let create := fun (_ : string) (s : list (string * string)) =>
                  (@Raised unit (OSError "AccessDenied"), s) in
  let put := fun (_ : bytes) (b k : string) (_ : option string)
                 (s : list (string * string)) => (Returned tt, s ++ [(b, k)]) in
  head "knowledge-repo" [] = (Raised (OSError "Not Found"), [])
  /\ upload_file (list (string * string)) "knowledge-repo" (Returned tt) head create put
       [] "temp/a.png" None ([], [])
     = (Returned None, ([], ["Upload Error: AccessDenied"])).
Proof.
  intros head create put. split; [reflexivity|].
  exact (upload_file_bucket_missing (list (string * string)) "knowledge-repo"
           head create put [] "temp/a.png" None ([], []) [] (OSError "Not Found") eq_refl).
Defined.

Lemma download_reads_uploaded_location_witness :
  let fetch := fun (b k : string) (s : list (string * string)) =>
                 if existsb (fun o => String.eqb (fst o) b && String.eqb (snd o) k) s
                 then (Returned ([] : bytes), s)
                 else (Raised (OSError "NoSuchKey"), s) in
  ~ In "/"%char (list_ascii_of_string "knowledge-repo")
  /\ download_file_obj (list (string * string)) (Returned tt) fetch
       ("knowledge-repo" +:+ "/" +:+ "temp/a.png")
       ([("knowledge-repo", "temp/a.png")], [])
     = (Returned (Some []), ([("knowledge-repo", "temp/a.png")], [])).
Proof.
  intros fetch.
  assert (Hno : ~ In "/"%char (list_ascii_of_string "knowledge-repo")).
  { cbn. intros H. repeat (destruct H as [H|H]; [discriminate|]). exact H. }
  split; [exact Hno|].
  exact (download_reads_uploaded_location (list (string * string)) "knowledge-repo"
           fetch "temp/a.png" ([("knowledge-repo", "temp/a.png")], []) Hno).
Defined.

Lemma download_path_without_slash_witness :
  let fetch := fun (_ _ : string) (s : unit) => (Returned ([] : bytes), s) in
  ~ In "/"%char (list_ascii_of_string "orphan")
  /\ download_file_obj unit (Returned tt) fetch "orphan" (tt, [])
     = (Returned None,
        (tt, ["Download Error: not enough values to unpack (expected 2, got 1)"])).
Proof.
  intros fetch.
  assert (Hno : ~ In "/"%char (list_ascii_of_string "orphan")).
  { cbn. intros H. repeat (destruct H as [H|H]; [discriminate|]). exact H. }
  split; [exact Hno|].
  exact (download_path_without_slash unit fetch "orphan" (tt, []) Hno).
Defined.

End StorageTheory.

(* ===================================================================== *)
(** ** Properties of the HTTP handlers (app.py) *)
(* ===================================================================== *)

Module AppTheory.
Import Py App PyTheory.

Section Handlers.
Variable S3 : Type.
Variable BUCKET_NAME : string.
Variable get_s3_client : outcome unit.
Variable head_bucket : string -> M S3 unit.
Variable create_bucket : string -> M S3 unit.
Variable upload_fileobj : bytes -> string -> string -> option string -> M S3 unit.
Variable json_dumps : list string -> string.

Abbreviation upload :=
  (upload_entry S3 BUCKET_NAME get_s3_client head_bucket create_bucket upload_fileobj).
Abbreviation stage :=
  (Storage.upload_file S3 BUCKET_NAME get_s3_client head_bucket create_bucket
     upload_fileobj).

(** C4.  [POST /api/upload] with type [image] and no file fails with
    status 400 and detail "Image upload requires a file."; with type
    [link] and no url it fails with status 400 and detail "Link upload
    requires a URL.".  In both cases the world is the one before the
    request: no entry is created, nothing is enqueued, nothing is staged. *)
Theorem upload_entry_requires_source (temp_uuid new_id : string) (now : datetime)
    (theme entryDate : string) (url : option string) (file : option UploadFile)
    (w : world S3) :
  upload temp_uuid new_id now theme entryDate "image" url None w
  = (Raised (HTTPException 400 "Image upload requires a file."), w)
  /\ upload temp_uuid new_id now theme entryDate "link" None file w
     = (Raised (HTTPException 400 "Link upload requires a URL."), w).
Proof.
  split.
  - reflexivity.
  - unfold upload_entry. cbn. reflexivity.
Qed.

(** C6.  [POST /api/reprocess/{entry_id}].  When no row of the catalogue
    has that id, the handler fails with status 404 and detail
    "Entry not found." and the world is unchanged.  When a row of the
    catalogue has that id, the handler returns the confirmation message;
    row by row, a row with that id has its [process_stage] set to
    "Uploaded" and its [updated_at] to the current time while its [id],
    [theme], [source_type], [source_url] and every other column keep their
    values, and a row with another id is left as it is; the id is appended
    once to the queue of the processor; the object store and standard
    output are untouched. *)
Theorem reprocess_entry_spec (now : datetime) (entry_id : string) (w : world S3) :
  let result := reprocess_entry S3 json_dumps now entry_id w in
  ((forall e, In e (entries w) -> Database.id e <> entry_id) ->
   result = (Raised (HTTPException 404 "Entry not found."), w))
  /\ ((exists e, In e (entries w) /\ Database.id e = entry_id) ->
      exists w',
        result = (Returned [("message", "Entry " +:+ entry_id
                                        +:+ " reset to Uploaded and re-queued.")], w')
        /\ Forall2 (fun e e' =>
                      (Database.id e = entry_id ->
                       Database.id e' = Database.id e
                       /\ Database.process_stage e' = Database.SqlText "Uploaded"
                       /\ Database.updated_at e' = Database.SqlText (isoformat now)
                       /\ Database.theme e' = Database.theme e
                       /\ Database.source_type e' = Database.source_type e
                       /\ Database.source_url e' = Database.source_url e
                       /\ (forall c, c <> Database.col_process_stage ->
                                     c <> Database.col_updated_at ->
                                     Database.get_column c e' = Database.get_column c e))
                      /\ (Database.id e <> entry_id -> e' = e))
                   (entries w) (entries w')
        /\ tasks w' = tasks w ++ [entry_id]
        /\ s3 w' = s3 w /\ stdout w' = stdout w).
Proof.
  cbv zeta. unfold reprocess_entry, bind, get. split.
  - intros Hno. rewrite (DatabaseTheory.get_entry_absent _ _ Hno). reflexivity.
  - intros (e & Hin & Hid).
    destruct (DatabaseTheory.get_entry_present _ _ _ Hin Hid) as [e0 ->].
    eexists. split; [reflexivity|]. cbn [entries tasks s3 stdout].
    split; [|split; [reflexivity|split; reflexivity]].
    eapply Forall2_impl; [apply DatabaseTheory.sql_update_Forall2|].
    intros r r' ->. cbn beta. split.
    + intros Hr. apply String.eqb_eq in Hr. rewrite Hr.
      pose proof (DatabaseTheory.update_assignments_row json_dumps now "Uploaded" None r)
        as (Hi & Hstage & Hup & _ & _ & _ & _ & Hth & Hst & Hsu & _).
      repeat (split; [assumption|]).
      intros c Hc1 Hc2. apply DatabaseTheory.set_columns_frame. cbn.
      rewrite !not_elem_of_cons. repeat split; try congruence. apply not_elem_of_nil.
    + intros Hr. apply String.eqb_neq in Hr. rewrite Hr. reflexivity.
Qed.

(** *** Creating the entry *)

(** The dict [upload_entry] hands to [add_entry] holds the four keys. *)
Lemma upload_entry_adds (new_id : string) (now : datetime)
    (theme entryDate type : string) (source_url : option string)
    (t : Database.table) :
  Database.get_entry new_id t = None ->
  Database.add_entry new_id now
    (<["theme" := Database.SqlText theme]>
       (<["source_type" := Database.SqlText type]>
          (<["source_url" := to_sql source_url]>
             (<["entry_date" := Database.SqlText entryDate]> ∅)))) t
  = (Returned new_id,
     t ++ [{| Database.id := new_id;
              Database.theme := Database.SqlText theme;
              Database.source_type := Database.SqlText type;
              Database.source_url := to_sql source_url;
              Database.entry_date := Database.SqlText entryDate;
              Database.process_stage := Database.SqlText "Uploaded";
              Database.tags := Database.SqlNull;
              Database.summary_caption := Database.SqlText "Processing summary...";
              Database.explain_like_im_5 := Database.SqlNull;
              Database.file_storage_path := Database.SqlNull;
              Database.created_at := Database.SqlText (isoformat now);
              Database.updated_at := Database.SqlText (isoformat now) |}]).
Proof.
  intros Hfresh.
  erewrite DatabaseTheory.add_entry_inserts; [| | |exact Hfresh].
  - unfold Database.dict_get.
    rewrite lookup_insert_eq.
    rewrite !lookup_insert_ne by discriminate. rewrite lookup_insert_eq.
    reflexivity.
  - rewrite lookup_insert_ne by discriminate. apply lookup_insert_eq.
  - rewrite !lookup_insert_ne by discriminate. apply lookup_insert_eq.
Qed.

(** C10.  A request whose type is neither [image] nor [link] passes
    validation: provided the generated id is new to the catalogue, one
    entry is created with that id, [source_url] NULL and [source_type]
    the submitted type, the id is appended to the queue, nothing is
    staged, and the confirmation with the id is returned. *)
Theorem upload_entry_other_type (temp_uuid new_id : string) (now : datetime)
    (theme entryDate type : string) (url : option string) (file : option UploadFile)
    (w : world S3) :
  type <> "image" ->
  type <> "link" ->
  Database.get_entry new_id (entries w) = None ->
  exists row,
    upload temp_uuid new_id now theme entryDate type url file w
    = (Returned [("message", "Entry submitted and queued for processing.");
                 ("id", new_id)],
       {| entries := entries w ++ [row]; tasks := tasks w ++ [new_id];
          s3 := s3 w; stdout := stdout w |})
    /\ Database.id row = new_id
    /\ Database.source_url row = Database.SqlNull
    /\ Database.source_type row = Database.SqlText type
    /\ Database.theme row = Database.SqlText theme
    /\ Database.entry_date row = Database.SqlText entryDate
    /\ Database.process_stage row = Database.SqlText "Uploaded".
Proof.
  intros Himage Hlink Hfresh.
  apply String.eqb_neq in Himage, Hlink.
  unfold upload_entry. rewrite Himage, Hlink. cbn [andb].
  unfold bind, ret, on_db, zoom, add_task, modify.
  rewrite (upload_entry_adds new_id now theme entryDate type None _ Hfresh).
  eexists. split; [reflexivity|]. cbn. repeat split; reflexivity.
Qed.

(** *** Staging an image *)

Lemma file_extension_default (f : UploadFile) :
  filename f = None \/ filename f = Some "" -> file_extension f = "dat".
Proof. unfold file_extension. intros [-> | ->]; reflexivity. Qed.

Lemma file_extension_after_dot (f : UploadFile) (stem ext : string) :
  filename f = Some (stem +:+ "." +:+ ext) ->
  ~ In "."%char (list_ascii_of_string ext) ->
  file_extension f = ext.
Proof.
  intros Hname Hno. unfold file_extension. rewrite Hname.
  cbn [truthy default].
  change ("." +:+ ext) with (String "."%char ext) at 1.
  rewrite append_not_empty. cbn [negb].
  change (String "."%char ext) with ("." +:+ ext).
  apply last_split_extension, Hno.
Qed.

(** A name with no dot at all becomes the extension as a whole. *)
Lemma file_extension_no_dot (f : UploadFile) (name : string) :
  filename f = Some name -> name <> "" ->
  ~ In "."%char (list_ascii_of_string name) ->
  file_extension f = name.
Proof.
  intros Hname Hne Hno. unfold file_extension. rewrite Hname.
  cbn [truthy default]. apply String.eqb_neq in Hne. rewrite Hne. cbn [negb].
  apply last_split_no_dot, Hno.
Qed.

(** When [upload_file] returns a location, it is [bucket/object_name]. *)
Lemma upload_file_location data object_name content_type st location st' :
  stage data object_name content_type st = (Returned (Some location), st') ->
  location = BUCKET_NAME +:+ "/" +:+ object_name.
Proof.
  unfold Storage.upload_file, bind, call, try_except, ret, Storage.on_s3, zoom,
    Storage.print, modify.
  destruct get_s3_client; [|discriminate].
  repeat (cbn [fst snd];
          match goal with
          | |- context [head_bucket ?b ?s] =>
              destruct (head_bucket b s) as [[?|?] ?]
          | |- context [create_bucket ?b ?s] =>
              destruct (create_bucket b s) as [[?|?] ?]
          | |- context [upload_fileobj ?d ?b ?k ?c ?s] =>
              destruct (upload_fileobj d b k c s) as [[?|?] ?]
          end);
    cbn [fst snd]; intros Heq; inversion Heq; reflexivity.
Qed.

(** C9, amended.  For an image submission the file is handed to
    [upload_file] under [temp/<uuid>.<ext>], where [<ext>] is ["dat"] when
    the file has no name or an empty one, and the text after the last dot
    of the name when it has one.  When [upload_file] returns no location
    the handler fails with status 500 and detail "Failed to upload file to
    storage.", and neither the catalogue nor the queue changes; when it
    returns one, that location is [bucket/temp/<uuid>.<ext>] and becomes
    the [source_url] of the entry. *)
Theorem upload_entry_stages_image (temp_uuid new_id : string) (now : datetime)
    (theme entryDate : string) (url : option string) (f : UploadFile) (w : world S3) :
  let temp_path := "temp/" +:+ temp_uuid +:+ "." +:+ file_extension f in
  let staged := stage (file_content f) temp_path None (s3 w, stdout w) in
  let result := upload temp_uuid new_id now theme entryDate "image" url (Some f) w in
  let w' := {| entries := entries w; tasks := tasks w;
               s3 := fst (snd staged); stdout := snd (snd staged) |} in
  (filename f = None \/ filename f = Some "" -> file_extension f = "dat")
  /\ (forall stem ext,
        filename f = Some (stem +:+ "." +:+ ext) ->
        ~ In "."%char (list_ascii_of_string ext) ->
        file_extension f = ext)
  /\ match fst staged with
     | Returned None =>
         result = (Raised (HTTPException 500 "Failed to upload file to storage."), w')
     | Raised e => result = (Raised e, w')
     | Returned (Some location) =>
         location = BUCKET_NAME +:+ "/" +:+ temp_path
         /\ (Database.get_entry new_id (entries w) = None ->
             exists row,
               result
               = (Returned [("message", "Entry submitted and queued for processing.");
                            ("id", new_id)],
                  {| entries := entries w ++ [row]; tasks := tasks w ++ [new_id];
                     s3 := s3 w'; stdout := stdout w' |})
               /\ Database.id row = new_id
               /\ Database.source_type row = Database.SqlText "image"
               /\ Database.source_url row = Database.SqlText location)
     end.
Proof.
  cbv zeta.
  split; [apply file_extension_default|].
  split; [intros stem ext; apply file_extension_after_dot|].
  unfold upload_entry. cbn [String.eqb Ascii.eqb Bool.eqb andb is_None].
  unfold bind, ret, raise, on_storage, on_db, zoom, add_task, modify. cbv beta.
  destruct (stage _ _ _ _) as [[[location|]|e] st'] eqn:Hstaged; cbn [fst snd].
  - pose proof (upload_file_location _ _ _ _ _ _ Hstaged) as ->.
    split; [reflexivity|]. intros Hfresh.
    cbn [truthy]. change ("/" +:+ ?x) with (String "/"%char x).
    rewrite append_not_empty. cbn [negb entries].
    rewrite (upload_entry_adds new_id now theme entryDate "image" (Some _) _ Hfresh).
    eexists. split; [reflexivity|]. cbn. repeat split; reflexivity.
  - reflexivity.
  - reflexivity.
Qed.
End Handlers.

Lemma reprocess_entry_spec_witness :
  let now := {| year := 2025; month := 3; day := 9; hour := 14; minute := 30;
                second := 7; microsecond := 0 |} in
  let e := {| Database.id := "a"; Database.theme := Database.SqlText "Art";
              Database.source_type := Database.SqlText "link";
              Database.source_url := Database.SqlText "https://example.org";
              Database.entry_date := Database.SqlText "2025-03";
              Database.process_stage := Database.SqlText "Error";
              Database.tags := Database.SqlNull;
              Database.summary_caption := Database.SqlText "Processing summary...";
              Database.explain_like_im_5 := Database.SqlNull;
              Database.file_storage_path := Database.SqlNull;
              Database.created_at := Database.SqlText "2025-03-01 08:00:00";
              Database.updated_at := Database.SqlText "2025-03-01 08:00:05" |} in
  let e' := {| Database.id := "a"; Database.theme := Database.SqlText "Art";
               Database.source_type := Database.SqlText "link";
               Database.source_url := Database.SqlText "https://example.org";
               Database.entry_date := Database.SqlText "2025-03";
               Database.process_stage := Database.SqlText "Uploaded";
               Database.tags := Database.SqlNull;
               Database.summary_caption := Database.SqlText "Processing summary...";
               Database.explain_like_im_5 := Database.SqlNull;
               Database.file_storage_path := Database.SqlNull;
               Database.created_at := Database.SqlText "2025-03-01 08:00:00";
               Database.updated_at := Database.SqlText "2025-03-09 14:30:07" |} in
  let w := {| entries := [e]; tasks := ["q"]; s3 := tt; stdout := [] |} in
  let dumps := fun _ : list string => "[]" in
  ((forall r, In r (entries w) -> Database.id r <> "b")
   /\ reprocess_entry unit dumps now "b" w
      = (Raised (HTTPException 404 "Entry not found."), w))
  /\ ((exists r, In r (entries w) /\ Database.id r = "a")
      /\ reprocess_entry unit dumps now "a" w
         = (Returned [("message", "Entry a reset to Uploaded and re-queued.")],
            {| entries := [e']; tasks := ["q"; "a"]; s3 := tt; stdout := [] |})).
Proof.
  intros now e e' w dumps.
  assert (Hno : forall r, In r (entries w) -> Database.id r <> "b").
  { intros r [<-|[]]. discriminate. }
  assert (Hyes : exists r, In r (entries w) /\ Database.id r = "a").
  { exists e. split; [left; reflexivity|reflexivity]. }
  split.
  - split; [exact Hno|].
    exact (proj1 (reprocess_entry_spec unit dumps now "b" w) Hno).
  - split; [exact Hyes|].
    destruct (proj2 (reprocess_entry_spec unit dumps now "a" w) Hyes) as (w' & Hres & _).
    reflexivity.
Defined.

Lemma upload_entry_other_type_witness :
  let now := {| year := 2025; month := 3; day := 9; hour := 14; minute := 30;
                second := 7; microsecond := 0 |} in
  let w := {| entries := []; tasks := []; s3 := tt; stdout := [] |} in
  "pdf" <> "image"
  /\ "pdf" <> "link"
  /\ Database.get_entry "new-id" (entries w) = None
  /\ exists row,
       upload_entry unit "knowledge-repo" (Returned tt) (fun _ => ret tt)
         (fun _ => ret tt) (fun _ _ _ _ => ret tt)
         "t-uuid" "new-id" now "Art" "2025-03" "pdf" (Some "https://example.org") None w
       = (Returned [("message", "Entry submitted and queued for processing.");
                    ("id", "new-id")],
          {| entries := entries w ++ [row]; tasks := tasks w ++ ["new-id"];
             s3 := s3 w; stdout := stdout w |})
       /\ Database.id row = "new-id"
       /\ Database.source_url row = Database.SqlNull
       /\ Database.source_type row = Database.SqlText "pdf"
       /\ Database.theme row = Database.SqlText "Art"
       /\ Database.entry_date row = Database.SqlText "2025-03"
       /\ Database.process_stage row = Database.SqlText "Uploaded".
Proof.
  intros now w.
  assert (H1 : "pdf" <> "image") by discriminate.
  assert (H2 : "pdf" <> "link") by discriminate.
  split; [exact H1|]. split; [exact H2|]. split; [reflexivity|].
  exact (upload_entry_other_type unit "knowledge-repo" (Returned tt) (fun _ => ret tt)
           (fun _ => ret tt) (fun _ _ _ _ => ret tt)
           "t-uuid" "new-id" now "Art" "2025-03" "pdf" (Some "https://example.org")
           None w H1 H2 eq_refl).
Defined.

(** C9, the claim as stated fails.  A file named [photo] has no extension,
    yet it is staged under [temp/<uuid>.photo], not [temp/<uuid>.dat]: the
    store records the object names it is given. *)
Lemma upload_entry_dotless_filename_extension :
  let now := {| year := 2025; month := 3; day := 9; hour := 14; minute := 30;
                second := 7; microsecond := 0 |} in
  let file := {| filename := Some "photo"; file_content := [] |} in
  let w := {| entries := []; tasks := []; s3 := []; stdout := [] |} in
  let result :=
    upload_entry (list (string * string)) "knowledge-repo" (Returned tt)
      (fun _ => ret tt) (fun _ => ret tt)
      (fun _ bucket key _ => modify (fun objects => objects ++ [(bucket, key)]))
      "t-uuid" "new-id" now "Art" "2025-03" "image" None (Some file) w in
  file_extension file = "photo"
  /\ s3 (snd result) = [("knowledge-repo", "temp/t-uuid.photo")]
  /\ s3 (snd result) <> [("knowledge-repo", "temp/t-uuid.dat")]
  /\ option_map Database.source_url (Database.get_entry "new-id" (entries (snd result)))
     = Some (Database.SqlText "knowledge-repo/temp/t-uuid.photo").
Proof.
  cbv zeta. split; [reflexivity|]. split; [vm_compute; reflexivity|].
  split; [vm_compute; discriminate|vm_compute; reflexivity].
Qed.

(** *** Further properties of the handlers *)

Lemma split_go_pieces sep s cur :
  ~ In sep cur ->
  Forall (fun piece => ~ In sep (list_ascii_of_string piece)) (split_go sep s cur).
Proof.
  revert cur. induction s as [|c s IH]; intros cur Hcur; cbn [split_go].
  - constructor; [|constructor].
    rewrite list_ascii_of_string_of_list_ascii, <- in_rev. exact Hcur.
  - destruct (Ascii.eqb_spec c sep) as [->|Hne].
    + constructor; [|apply IH; intros []].
      rewrite list_ascii_of_string_of_list_ascii, <- in_rev. exact Hcur.
    + apply IH. cbn. intros [Heq|Hin]; [congruence|tauto].
Qed.

Lemma last_Forall {A} (P : A -> Prop) (l : list A) d :
  l <> [] -> Forall P l -> P (List.last l d).
Proof.
  intros Hne Hall. induction Hall as [|x l Hx Hall IH]; [congruence|].
  destruct l as [|y l]; [exact Hx|]. apply IH. discriminate.
Qed.

(** X17.  The extension of the staged object never holds a dot, whatever
    the client's file name: in [temp/<uuid>.<ext>] the last dot is the one
    before [<ext>]. *)
Theorem file_extension_has_no_dot (f : UploadFile) :
  ~ In "."%char (list_ascii_of_string (file_extension f)).
Proof.
  unfold file_extension. destruct (truthy (filename f)).
  - unfold last_item, split. apply last_Forall; [apply split_go_nonempty|].
    apply split_go_pieces. intros [].
  - cbn. intros H. repeat (destruct H as [H|H]; [discriminate|]). exact H.
Qed.

Section Requests.
Variable S3 : Type.
Variable BUCKET_NAME : string.
Variable get_s3_client : outcome unit.
Variable head_bucket : string -> M S3 unit.
Variable create_bucket : string -> M S3 unit.
Variable upload_fileobj : bytes -> string -> string -> option string -> M S3 unit.
Variable fts_match : string -> outcome (list string).

Abbreviation upload :=
  (upload_entry S3 BUCKET_NAME get_s3_client head_bucket create_bucket upload_fileobj).
Abbreviation stage :=
  (Storage.upload_file S3 BUCKET_NAME get_s3_client head_bucket create_bucket
     upload_fileobj).

(** X18.  A link submission with a url creates one entry whose
    [source_type] is [link] and whose [source_url] is the url, in stage
    "Uploaded", and enqueues its id; the object store is not touched, even
    when a file came with the request.  The generated id is new to the
    catalogue. *)
Theorem upload_entry_link (temp_uuid new_id : string) (now : datetime)
    (theme entryDate u : string) (file : option UploadFile) (w : world S3) :
  Database.get_entry new_id (entries w) = None ->
  exists row,
    upload temp_uuid new_id now theme entryDate "link" (Some u) file w
    = (Returned [("message", "Entry submitted and queued for processing.");
                 ("id", new_id)],
       {| entries := entries w ++ [row]; tasks := tasks w ++ [new_id];
          s3 := s3 w; stdout := stdout w |})
    /\ Database.id row = new_id
    /\ Database.source_type row = Database.SqlText "link"
    /\ Database.source_url row = Database.SqlText u
    /\ Database.theme row = Database.SqlText theme
    /\ Database.entry_date row = Database.SqlText entryDate
    /\ Database.process_stage row = Database.SqlText "Uploaded"
    /\ Database.summary_caption row = Database.SqlText "Processing summary...".
Proof.
  intros Hfresh.
  unfold upload_entry. cbn [String.eqb Ascii.eqb Bool.eqb andb is_None].
  unfold bind, ret, on_db, zoom, add_task, modify.
  rewrite (upload_entry_adds new_id now theme entryDate "link" (Some u) _ Hfresh).
  eexists. split; [reflexivity|]. cbn. repeat split; reflexivity.
Qed.

(** The dict of [upload_entry] against a table that holds the id. *)
Lemma upload_entry_collides (new_id : string) (now : datetime)
    (theme entryDate type : string) (source_url : option string)
    (t : Database.table) (e : Database.Entry) :
  Database.get_entry new_id t = Some e ->
  Database.add_entry new_id now
    (<["theme" := Database.SqlText theme]>
       (<["source_type" := Database.SqlText type]>
          (<["source_url" := to_sql source_url]>
             (<["entry_date" := Database.SqlText entryDate]> ∅)))) t
  = (Raised (IntegrityError "UNIQUE constraint failed: entries.id"), t).
Proof.
  intros Hdup.
  unfold Database.add_entry, bind, Database.subscript, ret, Database.sql_insert.
  rewrite lookup_insert_ne by discriminate. rewrite lookup_insert_eq.
  rewrite !lookup_insert_ne by discriminate. rewrite lookup_insert_eq.
  cbn [Database.id]. unfold Database.get_entry in Hdup.
  rewrite (DatabaseTheory.existsb_find_some _ _ _ Hdup). reflexivity.
Qed.

(** X19.  Entry and task go together: whenever [upload_entry] returns, it
    has appended exactly one row, whose id is the one in the response, and
    exactly that id to the queue; whenever it raises (validation, staging,
    a failing INSERT), the catalogue and the queue are as before. *)
Theorem upload_entry_entry_and_task (temp_uuid new_id : string) (now : datetime)
    (theme entryDate type : string) (url : option string) (file : option UploadFile)
    (w : world S3) :
  match upload temp_uuid new_id now theme entryDate type url file w with
  | (Returned response, w') =>
      response = [("message", "Entry submitted and queued for processing.");
                  ("id", new_id)]
      /\ (exists row, entries w' = entries w ++ [row] /\ Database.id row = new_id)
      /\ tasks w' = tasks w ++ [new_id]
  | (Raised _, w') => entries w' = entries w /\ tasks w' = tasks w
  end.
Proof.
  assert (Hadd : forall source_url (w0 : world S3),
            entries w0 = entries w -> tasks w0 = tasks w ->
            match (let* new_id' := on_db S3 (Database.add_entry new_id now
                      (<["theme" := Database.SqlText theme]>
                         (<["source_type" := Database.SqlText type]>
                            (<["source_url" := to_sql source_url]>
                               (<["entry_date" := Database.SqlText entryDate]> ∅))))) in
                   exec add_task S3 new_id' in
                   ret [("message", "Entry submitted and queued for processing.");
                        ("id", new_id')])%py w0 with
            | (Returned response, w') =>
                response = [("message", "Entry submitted and queued for processing.");
                            ("id", new_id)]
                /\ (exists row, entries w' = entries w ++ [row] /\ Database.id row = new_id)
                /\ tasks w' = tasks w ++ [new_id]
            | (Raised _, w') => entries w' = entries w /\ tasks w' = tasks w
            end).
  { intros source_url w0 He Ht.
    unfold bind, ret, on_db, zoom, add_task, modify.
    destruct (Database.get_entry new_id (entries w0)) as [e|] eqn:Hget.
    - rewrite (upload_entry_collides _ now theme entryDate type source_url _ _ Hget).
      cbn [entries tasks]. auto.
    - rewrite (upload_entry_adds _ now theme entryDate type source_url _ Hget).
      cbn [entries tasks]. rewrite He, Ht.
      split; [reflexivity|]. split; [|reflexivity].
      eexists. split; reflexivity. }
  unfold upload_entry.
  destruct (String.eqb type "image" && is_None file); [cbn; auto|].
  destruct (String.eqb type "link" && is_None url); [cbn; auto|].
  unfold bind at 1.
  destruct (if String.eqb type "image" then file else None) as [f|].
  - unfold bind at 1. unfold on_storage, zoom.
    destruct (stage _ _ _ _) as [[[location|]|e] st'] eqn:Hstaged; cbn [fst snd].
    + pose proof (upload_file_location _ _ _ _ _ _ _ _ _ _ _ _ Hstaged) as ->.
      cbn [truthy]. change ("/" +:+ ?x) with (String "/"%char x).
      rewrite append_not_empty. cbn [negb]. unfold ret at 1.
      apply Hadd; reflexivity.
    + cbn. auto.
    + cbn. auto.
  - destruct (String.eqb type "link"); unfold ret at 1; apply Hadd; reflexivity.
Qed.

(** X20.  A search without hits lists everything: when a keyword is given
    and the index returns no id, [GET /api/entries] called with a page and
    a limit SQLite can bind answers as it does without a keyword, with the
    page cut from all entries and [total] the size of the whole
    catalogue. *)
Theorem get_entries_no_hits (page limit : Z) (keyword : string) (w : world S3) :
  Database.page_in_range page limit ->
  keyword <> "" ->
  fts_match (keyword +:+ "*") = Returned [] ->
  get_entries S3 fts_match page limit (Some keyword) w
  = get_entries S3 fts_match page limit None w
  /\ exists df,
       get_entries S3 fts_match page limit (Some keyword) w
       = (Returned (df, Z.of_nat (length (entries w))), w).
Proof.
  intros _ Hne Hhits. apply String.eqb_neq in Hne.
  unfold get_entries, bind, call, ret, get, Database.search_entries.
  cbn [truthy from_option id]. rewrite Hne. cbn [negb]. rewrite Hhits.
  split; [reflexivity|].
  eexists. unfold Database.get_paginated_entries.
  rewrite (DatabaseTheory.filter_everything (Database.where_clause (Some [])))
    by reflexivity.
  reflexivity.
Qed.

End Requests.

Lemma upload_entry_link_witness :
  let now := {| year := 2025; month := 3; day := 9; hour := 14; minute := 30;
                second := 7; microsecond := 0 |} in
  let w := {| entries := []; tasks := ["older"]; s3 := tt; stdout := [] |} in
  Database.get_entry "new-id" (entries w) = None
  /\ exists row,
       upload_entry unit "knowledge-repo" (Returned tt) (fun _ => ret tt)
         (fun _ => ret tt) (fun _ _ _ _ => ret tt)
         "t-uuid" "new-id" now "Art" "2025-03" "link" (Some "https://example.org") None w
       = (Returned [("message", "Entry submitted and queued for processing.");
                    ("id", "new-id")],
          {| entries := entries w ++ [row]; tasks := tasks w ++ ["new-id"];
             s3 := s3 w; stdout := stdout w |})
       /\ Database.id row = "new-id"
       /\ Database.source_type row = Database.SqlText "link"
       /\ Database.source_url row = Database.SqlText "https://example.org"
       /\ Database.theme row = Database.SqlText "Art"
       /\ Database.entry_date row = Database.SqlText "2025-03"
       /\ Database.process_stage row = Database.SqlText "Uploaded"
       /\ Database.summary_caption row = Database.SqlText "Processing summary...".
Proof.
  intros now w. split; [reflexivity|].
  exact (upload_entry_link unit "knowledge-repo" (Returned tt) (fun _ => ret tt)
           (fun _ => ret tt) (fun _ _ _ _ => ret tt)
           "t-uuid" "new-id" now "Art" "2025-03" "https://example.org" None w eq_refl).
Defined.

Lemma get_entries_no_hits_witness :
  let e := {| Database.id := "a"; Database.theme := Database.SqlText "Art";
              Database.source_type := Database.SqlText "link";
              Database.source_url := Database.SqlNull;
              Database.entry_date := Database.SqlText "2025-03";
              Database.process_stage := Database.SqlText "Done";
              Database.tags := Database.SqlNull;
              Database.summary_caption := Database.SqlText "An artist at work";
              Database.explain_like_im_5 := Database.SqlNull;
              Database.file_storage_path := Database.SqlNull;
              Database.created_at := Database.SqlText "2025-03-01 08:00:00";
              Database.updated_at := Database.SqlText "2025-03-01 08:00:05" |} in
  let w := {| entries := [e]; tasks := []; s3 := tt; stdout := [] |} in
  let index := fun _ : string => @Returned (list string) [] in
  Database.page_in_range 1 10
  /\ "zebra" <> ""
  /\ index ("zebra" +:+ "*") = Returned []
  /\ get_entries unit index 1 10 (Some "zebra") w = get_entries unit index 1 10 None w
  /\ exists df,
       get_entries unit index 1 10 (Some "zebra") w
       = (Returned (df, Z.of_nat (length (entries w))), w).
Proof.
  intros e w index.
  assert (Hr : Database.page_in_range 1 10)
    by (unfold Database.page_in_range, Database.sqlite_int; cbn; lia).
  assert (Hne : "zebra" <> "") by discriminate.
  split; [exact Hr|]. split; [exact Hne|]. split; [reflexivity|].
  exact (get_entries_no_hits unit index 1 10 "zebra" w Hr Hne eq_refl).
Defined.

Section Lifecycle.
Variable S3 : Type.
Variable BUCKET_NAME : string.
Variable get_s3_client : outcome unit.
Variable head_bucket : string -> M S3 unit.
Variable create_bucket : string -> M S3 unit.
Variable upload_fileobj : bytes -> string -> string -> option string -> M S3 unit.
Variable json_dumps : list string -> string.

(** X25.  An entry just submitted can be reprocessed: the id of the
    response of a link submission is found by the reprocess handler, which
    returns its confirmation, leaves the url and the creation time as
    stored, stamps [updated_at] with the time of the second request, and
    enqueues the id a second time. *)
Theorem upload_then_reprocess (temp_uuid new_id : string) (now now2 : datetime)
    (theme entryDate u : string) (file : option UploadFile) (w : world S3) :
  Database.get_entry new_id (entries w) = None ->
  exists w1 w2 e,
    upload_entry S3 BUCKET_NAME get_s3_client head_bucket create_bucket upload_fileobj
      temp_uuid new_id now theme entryDate "link" (Some u) file w
    = (Returned [("message", "Entry submitted and queued for processing.");
                 ("id", new_id)], w1)
    /\ reprocess_entry S3 json_dumps now2 new_id w1
       = (Returned [("message", "Entry " +:+ new_id
                                +:+ " reset to Uploaded and re-queued.")], w2)
    /\ tasks w2 = tasks w ++ [new_id; new_id]
    /\ length (entries w2) = S (length (entries w))
    /\ Database.get_entry new_id (entries w2) = Some e
    /\ Database.source_url e = Database.SqlText u
    /\ Database.process_stage e = Database.SqlText "Uploaded"
    /\ Database.created_at e = Database.SqlText (isoformat now)
    /\ Database.updated_at e = Database.SqlText (isoformat now2).
Proof.
  intros Hfresh.
  unfold upload_entry. cbn [String.eqb Ascii.eqb Bool.eqb andb is_None].
  unfold bind at 1 2 3, ret at 1 2, on_db, zoom, add_task, modify.
  rewrite (upload_entry_adds new_id now theme entryDate "link" (Some u) _ Hfresh).
  cbv beta iota. cbn [entries tasks s3 stdout].
  eexists _, _, _. split; [reflexivity|].
  unfold reprocess_entry, bind, get, ret, on_db, zoom, add_task, modify,
    Database.update_status.
  cbv beta iota. cbn [entries tasks s3 stdout].
  match goal with
  | |- context [Database.get_entry new_id (entries w ++ [?r])] =>
      assert (Hfound : Database.get_entry new_id (entries w ++ [r]) = Some r)
  end.
  { unfold Database.get_entry in *. rewrite DatabaseTheory.find_snoc, Hfresh.
    cbn [Database.id]. now rewrite String.eqb_refl. }
  rewrite Hfound. cbv beta iota. cbn [entries tasks s3 stdout fst snd].
  split; [reflexivity|]. cbn [entries tasks s3 stdout].
  split; [now rewrite <- app_assoc|].
  split; [rewrite DatabaseTheory.sql_update_length, length_app; cbn; lia|].
  split; [rewrite DatabaseTheory.get_entry_sql_update, Hfound; reflexivity|].
  repeat split; reflexivity.
Qed.
End Lifecycle.

Lemma upload_then_reprocess_witness :
  let now := {| year := 2025; month := 3; day := 9; hour := 14; minute := 30;
                second := 7; microsecond := 0 |} in
  let now2 := {| year := 2025; month := 3; day := 10; hour := 9; minute := 0;
                 second := 0; microsecond := 0 |} in
  let w := {| entries := []; tasks := []; s3 := tt; stdout := [] |} in
  Database.get_entry "new-id" (entries w) = None
  /\ exists w1 w2 e,
       upload_entry unit "knowledge-repo" (Returned tt) (fun _ => ret tt)
         (fun _ => ret tt) (fun _ _ _ _ => ret tt)
         "t-uuid" "new-id" now "Art" "2025-03" "link" (Some "https://example.org") None w
       = (Returned [("message", "Entry submitted and queued for processing.");
                    ("id", "new-id")], w1)
       /\ reprocess_entry unit (fun _ => "[]") now2 "new-id" w1
          = (Returned [("message", "Entry " +:+ "new-id"
                                   +:+ " reset to Uploaded and re-queued.")], w2)
       /\ tasks w2 = tasks w ++ ["new-id"; "new-id"]
       /\ length (entries w2) = S (length (entries w))
       /\ Database.get_entry "new-id" (entries w2) = Some e
       /\ Database.source_url e = Database.SqlText "https://example.org"
       /\ Database.process_stage e = Database.SqlText "Uploaded"
       /\ Database.created_at e = Database.SqlText (isoformat now)
       /\ Database.updated_at e = Database.SqlText (isoformat now2).
Proof.
  intros now now2 w. split; [reflexivity|].
  exact (upload_then_reprocess unit "knowledge-repo" (Returned tt) (fun _ => ret tt)
           (fun _ => ret tt) (fun _ _ _ _ => ret tt) (fun _ => "[]")
           "t-uuid" "new-id" now now2 "Art" "2025-03" "https://example.org" None w
           eq_refl).
Defined.

End AppTheory.
